(** * PyxTerm: the connection store and the tab bar of [main.py]

    A shallow embedding of the application class [PyxTerm], of its two
    modal screens and of the handlers that mutate [self.connections] and
    the tab bar, followed by the properties of the connection store and of
    the tabs.

    Python objects are modelled as follows.
    - A connection record is a Python [dict] from field names to the text of
      the modal's inputs: [gmap string string].
    - [self.connections] is a [dict] keyed by tree-node identifiers:
      [gmap NodeID dict].
    - A handler is a computation over the application object that either
      returns or raises; the state is kept when it raises, as the mutations a
      Python method made before an exception stay made.
    - A modal screen pushed with a callback is modelled by the reply the user
      gives it (the button pressed and what was typed); the callback runs at
      once on the value the screen is dismissed with. *)

From stdpp Require Import base option list gmap sets strings pretty.

Local Open Scope string_scope.
Local Open Scope nat_scope.
Local Open Scope list_scope.

(** ** Python layer *)

Abbreviation NodeID := nat (only parsing).
Abbreviation dict := (gmap string string) (only parsing).

Inductive exn :=
| KeyError_field (k : string)
| KeyError_node (k : NodeID).

Inductive outcome (A : Type) :=
| Ok (a : A)
| Raise (e : exn).
Arguments Ok {A} a.
Arguments Raise {A} e.

Definition M (S A : Type) : Type := S → outcome A * S.

#[global] Instance M_ret {S} : MRet (M S) := λ A a s, (Ok a, s).
#[global] Instance M_bind {S} : MBind (M S) := λ A B f m s,
  match m s with
  | (Ok a, s') => f a s'
  | (Raise e, s') => (Raise e, s')
  end.

Definition gets {S A} (f : S → A) : M S A := λ s, (Ok (f s), s).
Definition modify {S} (f : S → S) : M S unit := λ s, (Ok (), f s).
Definition raise {S A} (e : exn) : M S A := λ s, (Raise e, s).

(** [d[k]] on a record: raises [KeyError] when the field is missing. *)
Definition getitem {S} (d : gmap string string) (k : string) : M S string :=
  match d !! k with
  | Some v => mret v
  | None => raise (KeyError_field k)
  end.

(** [d.get(k, dflt)] *)
Definition dict_get {K V} `{Countable K} (d : gmap K V) (k : K) (dflt : V) : V :=
  default dflt (d !! k).

(** Truth value of [result] where [result] is [None] or a dict: an empty dict
    is false, as [None] is. *)
Definition truthy (result : option (gmap string string)) : bool :=
  match result with
  | None => false
  | Some d => negb (bool_decide (d = ∅))
  end.

(** ** Widgets of the toolkit, as far as the application calls them *)

(** The tab bar.  The constructor and [add_tab(label)] give each new tab the
    widget's own identifier ["tab-<n>"], counting from 1; [remove_tab] takes
    such an identifier and does nothing when no tab has it. *)
Record Tab := mkTab { tab_id : string; tab_label : string }.

Record Tabs := mkTabs {
  tabs_counter : nat;
  tab_list : list Tab;
  active : string
}.

Definition tab_name (n : nat) : string := "tab-" +:+ pretty n.

Definition Tabs_add_tab (label : string) (t : Tabs) : Tabs :=
  let n := S (tabs_counter t) in
  let new := mkTab (tab_name n) label in
  mkTabs n (tab_list t ++ [new])
         (if bool_decide (tab_list t = []) then tab_id new else active t).

Definition Tabs_new (labels : list string) : Tabs :=
  foldl (λ t l, Tabs_add_tab l t) (mkTabs 0 [] "") labels.

Definition Tabs_set_active (a : string) (t : Tabs) : Tabs :=
  mkTabs (tabs_counter t) (tab_list t) a.

Fixpoint tab_index (i : string) (l : list Tab) : option nat :=
  match l with
  | [] => None
  | x :: l => if decide (tab_id x = i) then Some 0 else S <$> tab_index i l
  end.

(** The tab that becomes active when the tab at [idx] goes away: the one
    that follows it, else the one before it. *)
Definition next_active (idx : nat) (rest : list Tab) : option Tab :=
  match rest !! idx with
  | Some x => Some x
  | None => match idx with 0 => None | S j => rest !! j end
  end.

Definition Tabs_remove_tab (i : string) (t : Tabs) : Tabs :=
  if decide (i = "") then t else
  match tab_index i (tab_list t) with
  | None => t
  | Some idx =>
      let rest := delete idx (tab_list t) in
      let a :=
        match rest with
        | [] => ""
        | _ => if decide (active t = i)
               then from_option tab_id (active t) (next_active idx rest)
               else active t
        end in
      mkTabs (tabs_counter t) rest a
  end.

(** The sidebar tree.  Nodes get consecutive identifiers; the root takes 0
    when the tree is built, and the application only ever adds leaves below
    the root. *)
Record TreeNode := mkNode {
  node_id : NodeID;
  node_label : string;
  allow_expand : bool
}.

Record Tree := mkTree {
  current_id : NodeID;
  children : list TreeNode
}.

Definition root_id : NodeID := 0.
Definition Tree_new : Tree := mkTree 1 [].

(** [tree.root.add(label)]: the new node and the tree with it. *)
Definition Tree_root_add (label : string) (t : Tree) : TreeNode * Tree :=
  let n := mkNode (current_id t) label true in
  (n, mkTree (S (current_id t)) (children t ++ [n])).

Definition update_node (i : NodeID) (f : TreeNode → TreeNode) (t : Tree) : Tree :=
  mkTree (current_id t)
         ((λ n, if decide (node_id n = i) then f n else n) <$> children t).

Definition set_allow_expand (b : bool) (n : TreeNode) : TreeNode :=
  mkNode (node_id n) (node_label n) b.
Definition set_label (l : string) (n : TreeNode) : TreeNode :=
  mkNode (node_id n) l (allow_expand n).

(** [node.remove()] *)
Definition Tree_remove (i : NodeID) (t : Tree) : Tree :=
  mkTree (current_id t) (filter (λ n, node_id n ≠ i) (children t)).

Definition find_node (i : NodeID) (t : Tree) : option TreeNode :=
  snd <$> list_find (λ n, node_id n = i) (children t).

(** ** The application object *)

Definition INITIAL_TABS : list string := ["⌂"].

Record PyxTerm := mkApp {
  tab_counter : nat;
  connections : gmap NodeID (gmap string string);
  theme : string;
  sidebar_hidden : bool;
  tabs : Tabs;
  tree : Tree;
  notifications : list string
}.

(** [__init__] and [compose] *)
Definition PyxTerm_init : PyxTerm := {|
  tab_counter := length INITIAL_TABS + 1;
  connections := ∅;
  theme := "textual-dark";
  sidebar_hidden := true;
  tabs := Tabs_new INITIAL_TABS;
  tree := Tree_new;
  notifications := []
|}.

Definition set_tab_counter (n : nat) (st : PyxTerm) : PyxTerm :=
  mkApp n (connections st) (theme st) (sidebar_hidden st) (tabs st) (tree st)
        (notifications st).
Definition set_connections (c : gmap NodeID (gmap string string)) (st : PyxTerm)
  : PyxTerm :=
  mkApp (tab_counter st) c (theme st) (sidebar_hidden st) (tabs st) (tree st)
        (notifications st).
Definition set_theme (s : string) (st : PyxTerm) : PyxTerm :=
  mkApp (tab_counter st) (connections st) s (sidebar_hidden st) (tabs st)
        (tree st) (notifications st).
Definition set_sidebar_hidden (b : bool) (st : PyxTerm) : PyxTerm :=
  mkApp (tab_counter st) (connections st) (theme st) b (tabs st) (tree st)
        (notifications st).
Definition set_tabs (t : Tabs) (st : PyxTerm) : PyxTerm :=
  mkApp (tab_counter st) (connections st) (theme st) (sidebar_hidden st) t
        (tree st) (notifications st).
Definition set_tree (t : Tree) (st : PyxTerm) : PyxTerm :=
  mkApp (tab_counter st) (connections st) (theme st) (sidebar_hidden st)
        (tabs st) t (notifications st).

(** [self.notify(msg, timeout=1)] *)
Definition notify (msg : string) : M PyxTerm unit :=
  modify (λ st, mkApp (tab_counter st) (connections st) (theme st)
                      (sidebar_hidden st) (tabs st) (tree st)
                      (notifications st ++ [msg])).

(** [self.connections[k] = v] *)
Definition connections_setitem (k : NodeID) (v : gmap string string)
  : M PyxTerm unit :=
  modify (λ st, set_connections (<[k:=v]> (connections st)) st).

(** [del self.connections[k]]: raises [KeyError] when [k] is not a key. *)
Definition connections_delitem (k : NodeID) : M PyxTerm unit :=
  st ← gets id;
  match connections st !! k with
  | Some _ => modify (set_connections (delete k (connections st)))
  | None => raise (KeyError_node k)
  end.

(** ** The modal screens *)

(** The five inputs of [ConnectionModal]. *)
Record form := mkForm {
  host_input : string;
  port_input : string;
  label_input : string;
  group_input : string;
  password_input : string
}.

(** What the user does with a modal: edits the inputs it was composed with,
    then presses the button with identifier [pressed]. *)
Record reply := mkReply {
  pressed : string;
  typing : form → form
}.

(** [ConnectionModal.__init__] and [compose]: the inputs start from
    [connection_data or {}], each field defaulting to the empty text. *)
Definition ConnectionModal_compose (connection_data : option (gmap string string))
  : form :=
  let data := if truthy connection_data then default ∅ connection_data else ∅ in
  mkForm (dict_get data "host" "") (dict_get data "port" "")
         (dict_get data "label" "") (dict_get data "group" "")
         (dict_get data "password" "").

(** [ConnectionModal.on_button_pressed]: the value the screen is dismissed
    with, if it is dismissed. *)
Definition ConnectionModal_on_button_pressed (button : string) (inputs : form)
  : option (option (gmap string string)) :=
  if decide (button = "save") then
    let host := host_input inputs in
    let port := port_input inputs in
    let label := label_input inputs in
    let group := group_input inputs in
    let password := password_input inputs in
    Some (Some (<["host":=host]> (<["port":=port]> (<["label":=label]>
               (<["group":=group]> (<["password":=password]> ∅))))))
  else if decide (button = "cancel") then Some None
  else None.

(** [ConfirmModal.on_button_pressed] *)
Definition ConfirmModal_on_button_pressed (button : string) : option bool :=
  if decide (button = "yes") then Some true
  else if decide (button = "no") then Some false
  else None.

Definition ConnectionModal (connection_data : option (gmap string string))
    (user : reply) : option (option (gmap string string)) :=
  ConnectionModal_on_button_pressed (pressed user)
    (typing user (ConnectionModal_compose connection_data)).

Definition ConfirmModal (user : reply) : option bool :=
  ConfirmModal_on_button_pressed (pressed user).

(** [self.push_screen(screen, callback)]: the callback receives the value the
    screen is dismissed with. *)
Definition push_screen {R} (dismissed : option R) (callback : R → M PyxTerm unit)
  : M PyxTerm unit :=
  match dismissed with
  | Some result => callback result
  | None => mret ()
  end.

(** ** Actions of [PyxTerm] *)

Definition action_toggle_dark : M PyxTerm unit :=
  modify (λ st, set_theme (if decide (theme st = "textual-light")
                           then "textual-dark" else "textual-light") st).

Definition action_toggle_sidebar : M PyxTerm unit :=
  modify (λ st, set_sidebar_hidden (negb (sidebar_hidden st)) st);;
  notify "Sidebar toggled".

Definition action_new_tab : M PyxTerm unit :=
  tab_counter_now ← gets tab_counter;
  let new_tab_id := tab_name tab_counter_now in
  modify (λ st, set_tabs (Tabs_add_tab new_tab_id (tabs st)) st);;
  modify (λ st, set_tabs (Tabs_set_active new_tab_id (tabs st)) st);;
  modify (λ st, set_tab_counter (tab_counter st + 1) st);;
  notify ("New tab created: " +:+ new_tab_id).

Definition action_close_tab : M PyxTerm unit :=
  st ← gets id;
  if decide (1 < length (tab_list (tabs st))) then
    let active_tab := active (tabs st) in
    modify (set_tabs (Tabs_remove_tab active_tab (tabs st)));;
    notify ("Tab closed: " +:+ active_tab)
  else
    notify "Cannot close the last tab".

(** ** The connection menu: [on_select_changed] *)

Definition handle_add_connection (result : option (gmap string string))
  : M PyxTerm unit :=
  if truthy result then
    let result := default ∅ result in
    label ← getitem result "label";
    t ← gets tree;
    let '(new_node, t) := Tree_root_add label t in
    modify (set_tree (update_node (node_id new_node) (set_allow_expand false) t));;
    connections_setitem (node_id new_node) result;;
    notify ("Connection added: " +:+ label)
  else mret ().

Definition handle_edit_connection (selected_node : NodeID)
    (result : option (gmap string string)) : M PyxTerm unit :=
  if truthy result then
    let result := default ∅ result in
    label ← getitem result "label";
    modify (λ st, set_tree (update_node selected_node (set_label label) (tree st)) st);;
    connections_setitem selected_node result;;
    notify ("Connection updated: " +:+ label)
  else mret ().

Definition handle_remove_connection (selected_node : NodeID) (result : bool)
  : M PyxTerm unit :=
  if result then
    label ← gets (λ st, from_option node_label "" (find_node selected_node (tree st)));
    modify (λ st, set_tree (Tree_remove selected_node (tree st)) st);;
    connections_delitem selected_node;;
    notify ("Connection removed: " +:+ label)
  else mret ().

(** [selected_node and selected_node != tree.root]: the identifier of the
    selected connection node, if there is one. *)
Definition selected_connection (selected_node : option NodeID) : option NodeID :=
  match selected_node with
  | Some n => if decide (n ≠ root_id) then Some n else None
  | None => None
  end.

(** [self.connections.get(selected_node.id, {})] *)
Definition connection_data (selected_node : NodeID)
  : M PyxTerm (gmap string string) :=
  gets (λ st, dict_get (connections st) selected_node ∅).

(** [cursor_node] is what [tree.cursor_node] holds when the menu fires. *)
Definition on_select_changed (cursor_node : option NodeID) (value : string)
    (user : reply) : M PyxTerm unit :=
  let selected_node := cursor_node in
  if decide (value = "add") then
    push_screen (ConnectionModal None user) handle_add_connection
  else if decide (value = "edit") then
    match selected_connection selected_node with
    | Some n =>
        data ← connection_data n;
        push_screen (ConnectionModal (Some data) user)
                    (handle_edit_connection n)
    | None => notify "No connection selected"
    end
  else if decide (value = "remove") then
    match selected_connection selected_node with
    | Some n => push_screen (ConfirmModal user) (handle_remove_connection n)
    | None => notify "No connection selected"
    end
  else mret ().

(** ** Events and runs *)

Inductive action := toggle_dark | toggle_sidebar | new_tab | close_tab.

Definition BINDINGS : list (string * action) :=
  [("d", toggle_dark); ("ctrl+s", toggle_sidebar);
   ("ctrl+n", new_tab); ("ctrl+x", close_tab)].

Definition run_action (a : action) : M PyxTerm unit :=
  match a with
  | toggle_dark => action_toggle_dark
  | toggle_sidebar => action_toggle_sidebar
  | new_tab => action_new_tab
  | close_tab => action_close_tab
  end.

Inductive event :=
| Key (k : string)
| SelectChanged (cursor_node : option NodeID) (value : string) (user : reply).

Definition binding (k : string) : option action :=
  snd <$> head (filter (λ b, b.1 = k) BINDINGS).

Definition dispatch (ev : event) : M PyxTerm unit :=
  match ev with
  | Key k => from_option run_action (mret ()) (binding k)
  | SelectChanged cursor_node value user =>
      on_select_changed cursor_node value user
  end.

(** A run handles the events in turn and stops at the first handler that
    raises. *)
Fixpoint run (evs : list event) : M PyxTerm unit :=
  match evs with
  | [] => mret ()
  | ev :: evs => dispatch ev;; run evs
  end.

Definition final (evs : list event) (st : PyxTerm) : PyxTerm := (run evs st).2.

(** ** The three mutations of [self.connections]

    The store is written in three places: [handle_add_connection] and
    [handle_edit_connection] assign a record to an identifier,
    [handle_remove_connection] deletes one. *)

Inductive store_op :=
| AddConnection (new_node_id : NodeID) (result : gmap string string)
| EditConnection (selected_node : NodeID) (result : gmap string string)
| RemoveConnection (selected_node : NodeID).

Definition store_step (op : store_op) : M PyxTerm unit :=
  match op with
  | AddConnection k result => connections_setitem k result
  | EditConnection k result => connections_setitem k result
  | RemoveConnection k => connections_delitem k
  end.

Fixpoint run_store (ops : list store_op) : M PyxTerm unit :=
  match ops with
  | [] => mret ()
  | op :: ops => store_step op;; run_store ops
  end.

(** The operations a run gets to: all of them, or those up to and including
    the first that raises. *)
Fixpoint attempted (ops : list store_op) (st : PyxTerm) : list store_op :=
  match ops with
  | [] => []
  | op :: ops =>
      op :: match store_step op st with
            | (Ok _, st') => attempted ops st'
            | (Raise _, _) => []
            end
  end.

(** What a sequence of mutations says a lookup should give. *)
Definition op_key (op : store_op) : NodeID :=
  match op with
  | AddConnection k _ | EditConnection k _ | RemoveConnection k => k
  end.

Definition op_written (op : store_op) : option (gmap string string) :=
  match op with
  | AddConnection _ r | EditConnection _ r => Some r
  | RemoveConnection _ => None
  end.

Definition last_mutation (k : NodeID) (ops : list store_op) : option store_op :=
  last (filter (λ op, op_key op = k) ops).

Definition expected (k : NodeID) (ops : list store_op)
    (before : option (gmap string string)) : option (gmap string string) :=
  from_option op_written before (last_mutation k ops).

(** The store operation an event performs, and the operations of a run in
    the order its handlers perform them. *)
Definition store_ops_of (ev : event) (st : PyxTerm) : list store_op :=
  match ev with
  | Key _ => []
  | SelectChanged cursor value user =>
      if decide (value = "add") then
        match ConnectionModal None user with
        | Some (Some d) => [AddConnection (current_id (tree st)) d]
        | _ => []
        end
      else if decide (value = "edit") then
        match selected_connection cursor with
        | Some n =>
            match ConnectionModal (Some (dict_get (connections st) n ∅)) user with
            | Some (Some d) => [EditConnection n d]
            | _ => []
            end
        | None => []
        end
      else if decide (value = "remove") then
        match selected_connection cursor, ConfirmModal user with
        | Some n, Some true => [RemoveConnection n]
        | _, _ => []
        end
      else []
  end.

Fixpoint store_trace (evs : list event) (st : PyxTerm) : list store_op :=
  match evs with
  | [] => []
  | ev :: evs =>
      store_ops_of ev st ++
      match dispatch ev st with
      | (Ok _, st') => store_trace evs st'
      | (Raise _, _) => []
      end
  end.

(** ** Predicates on states and runs *)

(** The field names of a connection record. *)
Definition FIELDS : gset string :=
  {[ "host"; "port"; "label"; "group"; "password" ]}.

Definition tab_count (st : PyxTerm) : nat := length (tab_list (tabs st)).

Definition node_ids (t : Tree) : list NodeID := node_id <$> children t.

(** Every stored record has the five fields and no other. *)
Definition record_shape (st : PyxTerm) : Prop :=
  ∀ k d, connections st !! k = Some d → dom d = FIELDS.

(** The store has a record for each connection node of the tree and for
    nothing else. *)
Definition store_matches_tree (st : PyxTerm) : Prop :=
  ∀ k, is_Some (connections st !! k) ↔ k ∈ node_ids (tree st).

(** The cursor of the tree is on nothing, on the root, or on a node that is
    in the tree. *)
Definition cursor_ok (st : PyxTerm) (ev : event) : bool :=
  match ev with
  | SelectChanged (Some n) _ _ =>
      bool_decide (n = root_id) || bool_decide (n ∈ node_ids (tree st))
  | _ => true
  end.

Inductive reachable : PyxTerm → Prop :=
| reach_init : reachable PyxTerm_init
| reach_step st ev :
    reachable st → cursor_ok st ev = true → reachable (dispatch ev st).2.

(** The tab identifiers [action_new_tab] makes up during a run. *)
Fixpoint generated_tab_ids (evs : list event) (st : PyxTerm) : list string :=
  match evs with
  | [] => []
  | ev :: evs =>
      match ev with
      | Key k => match binding k with
                 | Some new_tab => [tab_name (tab_counter st)]
                 | _ => []
                 end
      | _ => []
      end ++
      match dispatch ev st with
      | (Ok _, st') => generated_tab_ids evs st'
      | (Raise _, _) => []
      end
  end.

(** A port that is a number between 1 and 65535: the text of the port field
    read as a decimal number. *)
Definition digit_value (c : Ascii.ascii) : option N :=
  let n := Ascii.N_of_ascii c in
  if decide (48 ≤ n ≤ 57)%N then Some (n - 48)%N else None.

Fixpoint decimal_value (s : string) (acc : N) : option N :=
  match s with
  | EmptyString => Some acc
  | String c s => d ← digit_value c; decimal_value s (10 * acc + d)%N
  end.

Definition port_number (d : gmap string string) : option N :=
  s ← d !! "port";
  if decide (s = "") then None else decimal_value s 0.

Definition port_in_range (d : gmap string string) : bool :=
  match port_number d with
  | Some n => bool_decide (1 ≤ n ≤ 65535)%N
  | None => false
  end.

(** A run in which the cursor is on nothing, on the root or on a node of the
    tree each time the menu fires. *)
Fixpoint valid_run (evs : list event) (st : PyxTerm) : bool :=
  match evs with
  | [] => true
  | ev :: evs =>
      cursor_ok st ev &&
      match dispatch ev st with
      | (Ok _, st') => valid_run evs st'
      | (Raise _, _) => true
      end
  end.

(** The tree and the store agree: the nodes below the root carry distinct
    identifiers, all of them handed out already and none the root's; the
    store has a record for exactly these identifiers; and each node shows
    the label field of its record. *)
Definition in_sync (st : PyxTerm) : Prop :=
  store_matches_tree st
  ∧ 0 < current_id (tree st)
  ∧ Forall (λ i, 0 < i < current_id (tree st)) (node_ids (tree st))
  ∧ NoDup (node_ids (tree st))
  ∧ (∀ x, x ∈ children (tree st) →
          ∃ d, connections st !! node_id x = Some d
               ∧ d !! "label" = Some (node_label x)).

(** The record of a form whose five inputs are empty. *)
Definition empty_record : gmap string string :=
  <["host":=""]> (<["port":=""]> (<["label":=""]>
    (<["group":=""]> (<["password":=""]> ∅)))).

(** The [ctrl+n] presses of a run that are handled. *)
Definition is_new_tab (ev : event) : bool :=
  match ev with
  | Key k => match binding k with Some new_tab => true | _ => false end
  | _ => false
  end.

(** The identifiers of the tabs a run creates, read from what
    [action_new_tab] leaves behind each time: the identifier it assigned to
    [tabs.active]. *)
Fixpoint created_tab_ids (evs : list event) (st : PyxTerm) : list string :=
  match evs with
  | [] => []
  | ev :: evs =>
      (if is_new_tab ev then [active (tabs (dispatch ev st).2)] else []) ++
      match dispatch ev st with
      | (Ok _, st') => created_tab_ids evs st'
      | (Raise _, _) => []
      end
  end.

(** Replies used in the examples: typing a whole form and pressing Save, and
    pressing a button without typing. *)
Definition save_as (inputs : form) : reply := mkReply "save" (λ _, inputs).
Definition press (button : string) : reply := mkReply button (λ inputs, inputs).

Definition db1 : form := mkForm "10.0.0.5" "22" "db1" "prod" "hunter2".
Definition web : form := mkForm "example.org" "70000" "web" "" "".

(** * Properties *)

#[local] Set Warnings "-clear-no-such-hyp".

(** ** Computing with handlers *)

Ltac unfold_m :=
  unfold mbind, mret, M_bind, M_ret, gets, modify, raise, notify in *.

Lemma delitem_connections k st :
  connections (connections_delitem k st).2 = delete k (connections st).
Proof.
  unfold connections_delitem. unfold_m. simpl.
  destruct (connections st !! k) eqn:E; simpl; [done|].
  symmetry. by apply delete_id.
Qed.

(** ** The store reflects the last mutation *)

Lemma store_step_lookup op st k :
  connections (store_step op st).2 !! k = expected k [op] (connections st !! k).
Proof.
  unfold expected, last_mutation.
  destruct op as [j r|j r|j]; simpl;
    rewrite ?delitem_connections; rewrite filter_cons, filter_nil; simpl;
    case_decide; simplify_map_eq; done.
Qed.

Lemma expected_cons k op ops before :
  expected k (op :: ops) before = expected k ops (expected k [op] before).
Proof.
  unfold expected, last_mutation.
  rewrite (filter_cons _ op ops), (filter_cons _ op []), filter_nil.
  case_decide; simpl; [|done].
  rewrite last_cons. by destruct (last (filter _ ops)).
Qed.

Lemma run_store_cons op ops st :
  run_store (op :: ops) st =
  match store_step op st with
  | (Ok _, st') => run_store ops st'
  | (Raise e, st') => (Raise e, st')
  end.
Proof. simpl. unfold mbind, M_bind. by destruct (store_step op st) as [[[]|e] st']. Qed.

Lemma run_store_lookup ops st k :
  connections (run_store ops st).2 !! k =
  expected k (attempted ops st) (connections st !! k).
Proof.
  revert st. induction ops as [|op ops IH]; intros st; [done|].
  rewrite run_store_cons. cbn [attempted].
  rewrite expected_cons, <- store_step_lookup.
  destruct (store_step op st) as [[[]|e] st'] eqn:E; simpl; [apply IH|done].
Qed.

Lemma attempted_all ops st :
  (run_store ops st).1 = Ok () → attempted ops st = ops.
Proof.
  revert st. induction ops as [|op ops IH]; intros st; [done|].
  rewrite run_store_cons. cbn [attempted].
  destruct (store_step op st) as [[[]|e] st'] eqn:E; simpl; [|done].
  intros H. f_equal. by apply IH.
Qed.

(** ** Tabs *)

Lemma tab_index_lt i l idx : tab_index i l = Some idx → idx < length l.
Proof.
  revert idx. induction l as [|x l IH]; intros idx; simpl; [done|].
  case_decide.
  - intros [= <-]. lia.
  - destruct (tab_index i l) as [j|]; simpl; [|done].
    intros [= <-]. specialize (IH j eq_refl). lia.
Qed.

Lemma Tabs_remove_tab_length i t :
  length (tab_list t) - 1 ≤ length (tab_list (Tabs_remove_tab i t)).
Proof.
  unfold Tabs_remove_tab. case_decide; [lia|].
  destruct (tab_index i (tab_list t)) as [idx|] eqn:E; simpl; [|lia].
  apply tab_index_lt in E. rewrite length_delete; [lia|].
  by apply lookup_lt_is_Some_2.
Qed.

Lemma action_new_tab_run st :
  action_new_tab st =
  (Ok (),
   mkApp (tab_counter st + 1) (connections st) (theme st) (sidebar_hidden st)
         (Tabs_set_active (tab_name (tab_counter st))
            (Tabs_add_tab (tab_name (tab_counter st)) (tabs st)))
         (tree st)
         (notifications st ++ ["New tab created: " +:+ tab_name (tab_counter st)])).
Proof. done. Qed.

Lemma action_close_tab_tabs st :
  tabs (action_close_tab st).2 =
  if decide (1 < length (tab_list (tabs st)))
  then Tabs_remove_tab (active (tabs st)) (tabs st) else tabs st.
Proof.
  unfold action_close_tab. unfold_m. simpl. by case_decide.
Qed.

Lemma run_action_tab_count a st :
  1 ≤ tab_count st → 1 ≤ tab_count (run_action a st).2.
Proof.
  unfold tab_count. intros H. destruct a; try done.
  - rewrite action_new_tab_run. simpl. rewrite length_app. simpl. lia.
  - simpl. rewrite action_close_tab_tabs. case_decide; [|done].
    pose proof (Tabs_remove_tab_length (active (tabs st)) (tabs st)). lia.
Qed.

(** ** The modal screens and the handlers, in closed form *)

Lemma truthy_lookup (d : gmap string string) k v :
  d !! k = Some v → truthy (Some d) = true.
Proof.
  intros H. simpl. rewrite bool_decide_eq_false_2; [done|].
  intros ->. by rewrite lookup_empty in H.
Qed.

(** A dismissed [ConnectionModal] gives [None] (Cancel) or the record of the
    five inputs (Save). *)
Lemma ConnectionModal_saved cd user d :
  ConnectionModal cd user = Some (Some d) →
  let inputs := typing user (ConnectionModal_compose cd) in
  dom d = FIELDS
  ∧ d !! "host" = Some (host_input inputs)
  ∧ d !! "port" = Some (port_input inputs)
  ∧ d !! "label" = Some (label_input inputs)
  ∧ d !! "group" = Some (group_input inputs)
  ∧ d !! "password" = Some (password_input inputs).
Proof.
  unfold ConnectionModal, ConnectionModal_on_button_pressed.
  repeat case_decide; try done. intros [= <-]. simpl.
  split; [|by simplify_map_eq].
  rewrite !dom_insert_L, dom_empty_L. unfold FIELDS. set_solver.
Qed.

Lemma handle_add_connection_run d l st :
  d !! "label" = Some l →
  handle_add_connection (Some d) st =
  (Ok (),
   mkApp (tab_counter st) (<[current_id (tree st):=d]> (connections st))
         (theme st) (sidebar_hidden st) (tabs st)
         (update_node (current_id (tree st)) (set_allow_expand false)
            (Tree_root_add l (tree st)).2)
         (notifications st ++ ["Connection added: " +:+ l])).
Proof.
  intros H. unfold handle_add_connection.
  rewrite (truthy_lookup _ _ _ H). unfold getitem. simpl. by rewrite H.
Qed.

Lemma handle_edit_connection_run n d l st :
  d !! "label" = Some l →
  handle_edit_connection n (Some d) st =
  (Ok (),
   mkApp (tab_counter st) (<[n:=d]> (connections st))
         (theme st) (sidebar_hidden st) (tabs st)
         (update_node n (set_label l) (tree st))
         (notifications st ++ ["Connection updated: " +:+ l])).
Proof.
  intros H. unfold handle_edit_connection.
  rewrite (truthy_lookup _ _ _ H). unfold getitem. simpl. by rewrite H.
Qed.

Lemma handle_remove_connection_present n d st :
  connections st !! n = Some d →
  handle_remove_connection n true st =
  (Ok (),
   mkApp (tab_counter st) (delete n (connections st))
         (theme st) (sidebar_hidden st) (tabs st)
         (Tree_remove n (tree st))
         (notifications st ++
            ["Connection removed: " +:+
             from_option node_label "" (find_node n (tree st))])).
Proof.
  intros H. unfold handle_remove_connection, connections_delitem. unfold_m.
  simpl. by rewrite H.
Qed.

Lemma handle_remove_connection_absent n st :
  connections st !! n = None →
  handle_remove_connection n true st =
  (Raise (KeyError_node n), set_tree (Tree_remove n (tree st)) st).
Proof.
  intros H. unfold handle_remove_connection, connections_delitem. unfold_m.
  simpl. by rewrite H.
Qed.

(** The three shapes of [on_select_changed]'s effect once the modal is
    answered. *)
Lemma on_select_changed_add cursor user st :
  on_select_changed cursor "add" user st =
  match ConnectionModal None user with
  | Some result => handle_add_connection result st
  | None => (Ok (), st)
  end.
Proof. unfold on_select_changed, push_screen. simpl. by case_match. Qed.

Lemma on_select_changed_edit cursor user st :
  on_select_changed cursor "edit" user st =
  match selected_connection cursor with
  | Some n =>
      match ConnectionModal (Some (dict_get (connections st) n ∅)) user with
      | Some result => handle_edit_connection n result st
      | None => (Ok (), st)
      end
  | None => notify "No connection selected" st
  end.
Proof.
  unfold on_select_changed, push_screen, connection_data. simpl.
  case_match; [|done]. unfold_m. by case_match.
Qed.

Lemma on_select_changed_remove cursor user st :
  on_select_changed cursor "remove" user st =
  match selected_connection cursor with
  | Some n =>
      match ConfirmModal user with
      | Some result => handle_remove_connection n result st
      | None => (Ok (), st)
      end
  | None => notify "No connection selected" st
  end.
Proof.
  unfold on_select_changed, push_screen. simpl.
  case_match; [|done]. by case_match.
Qed.

Lemma on_select_changed_other cursor value user st :
  value ≠ "add" → value ≠ "edit" → value ≠ "remove" →
  on_select_changed cursor value user st = (Ok (), st).
Proof. intros. unfold on_select_changed. by repeat case_decide. Qed.

(** ** What one menu event does to the store and to the tree *)

Lemma on_select_changed_effect cursor value user st :
  let res := on_select_changed cursor value user st in
  let st' := res.2 in
  (tab_counter st' = tab_counter st ∧ tabs st' = tabs st) ∧
  ((res.1 = Ok () ∧ connections st' = connections st ∧ tree st' = tree st)
   ∨ (∃ d l, value = "add" ∧ ConnectionModal None user = Some (Some d)
        ∧ d !! "label" = Some l ∧ res.1 = Ok ()
        ∧ connections st' = <[current_id (tree st):=d]> (connections st)
        ∧ tree st' = update_node (current_id (tree st)) (set_allow_expand false)
                       (Tree_root_add l (tree st)).2)
   ∨ (∃ n d l, value = "edit" ∧ selected_connection cursor = Some n
        ∧ ConnectionModal (Some (dict_get (connections st) n ∅)) user
          = Some (Some d)
        ∧ d !! "label" = Some l ∧ res.1 = Ok ()
        ∧ connections st' = <[n:=d]> (connections st)
        ∧ tree st' = update_node n (set_label l) (tree st))
   ∨ (∃ n, value = "remove" ∧ selected_connection cursor = Some n
        ∧ ConfirmModal user = Some true
        ∧ res.1 = (if connections st !! n is Some _ then Ok ()
                   else Raise (KeyError_node n))
        ∧ connections st' = delete n (connections st)
        ∧ tree st' = Tree_remove n (tree st))).
Proof.
  intros res st'. subst st' res.
  destruct (decide (value = "add")) as [->|Ha].
  { rewrite on_select_changed_add.
    destruct (ConnectionModal None user) as [[d|]|] eqn:E; simpl; try by auto.
    destruct (ConnectionModal_saved _ _ _ E) as (_ & _ & _ & Hl & _).
    rewrite (handle_add_connection_run _ _ _ Hl). simpl.
    split; [done|]. right; left. by eexists d, _. }
  destruct (decide (value = "edit")) as [->|He].
  { rewrite on_select_changed_edit.
    destruct (selected_connection cursor) as [n|] eqn:En; simpl; [|by auto].
    destruct (ConnectionModal _ user) as [[d|]|] eqn:E; simpl; try by auto.
    destruct (ConnectionModal_saved _ _ _ E) as (_ & _ & _ & Hl & _).
    rewrite (handle_edit_connection_run _ _ _ _ Hl). simpl.
    split; [done|]. right; right; left. by eexists n, d, _. }
  destruct (decide (value = "remove")) as [->|Hr].
  { rewrite on_select_changed_remove.
    destruct (selected_connection cursor) as [n|] eqn:En; simpl; [|by auto].
    destruct (ConfirmModal user) as [[]|] eqn:E; [|simpl; by auto..].
    destruct (connections st !! n) as [d|] eqn:Ed.
    - rewrite (handle_remove_connection_present _ _ _ Ed). simpl.
      split; [done|]. do 3 right. exists n. by rewrite Ed.
    - rewrite (handle_remove_connection_absent _ _ Ed). simpl.
      split; [done|]. do 3 right. exists n. rewrite Ed.
      repeat split; try done. symmetry. by apply delete_id. }
  rewrite on_select_changed_other by done. simpl. auto.
Qed.

Lemma run_action_frame a st :
  (run_action a st).1 = Ok ()
  ∧ connections (run_action a st).2 = connections st
  ∧ tree (run_action a st).2 = tree st.
Proof.
  destruct a; simpl; try done.
  unfold action_close_tab. unfold_m. simpl. by case_decide.
Qed.

Lemma dispatch_key k st :
  dispatch (Key k) st =
  match binding k with Some a => run_action a st | None => (Ok (), st) end.
Proof. simpl. by destruct (binding k). Qed.

Lemma run_cons ev evs st :
  run (ev :: evs) st =
  match dispatch ev st with
  | (Ok _, st') => run evs st'
  | (Raise e, st') => (Raise e, st')
  end.
Proof. simpl. unfold mbind, M_bind. by destruct (dispatch ev st) as [[[]|e] st']. Qed.

(** An invariant of every handler is an invariant of every run. *)
Lemma run_invariant (P : PyxTerm → Prop) :
  (∀ ev st, P st → P (dispatch ev st).2) →
  ∀ evs st, P st → P (final evs st).
Proof.
  intros Hstep evs. unfold final.
  induction evs as [|ev evs IH]; intros st HP; [done|].
  rewrite run_cons. specialize (Hstep ev st HP).
  destruct (dispatch ev st) as [[[]|e] st']; simpl in *; auto.
Qed.

(** ** The last tab stays *)

Lemma dispatch_tab_count ev st :
  1 ≤ tab_count st → 1 ≤ tab_count (dispatch ev st).2.
Proof.
  intros H. destruct ev as [k|cursor value user].
  - rewrite dispatch_key. destruct (binding k); [|done].
    by apply run_action_tab_count.
  - destruct (on_select_changed_effect cursor value user st) as [[_ Ht] _].
    unfold tab_count. simpl. by rewrite Ht.
Qed.

(** C8. [action_close_tab] does not remove the last tab: with exactly one
    tab it leaves the tab bar as it is, and after any sequence of events
    from the start of the application at least one tab exists. *)
Theorem close_tab_keeps_last_tab :
  (∀ st, tab_count st = 1 → tabs (action_close_tab st).2 = tabs st)
  ∧ (∀ evs, 1 ≤ tab_count (final evs PyxTerm_init)).
Proof.
  split.
  - intros st H. rewrite action_close_tab_tabs.
    unfold tab_count in H. case_decide; [lia|done].
  - intros evs. apply (run_invariant (λ st, 1 ≤ tab_count st)).
    + intros ev st. apply dispatch_tab_count.
    + done.
Qed.

Lemma close_tab_keeps_last_tab_witness :
  tab_count PyxTerm_init = 1
  ∧ tabs (action_close_tab PyxTerm_init).2 = tabs PyxTerm_init
  ∧ 1 ≤ tab_count (final [Key "ctrl+n"; Key "ctrl+x"; Key "ctrl+x"] PyxTerm_init).
Proof.
  destruct close_tab_keeps_last_tab as [H1 H2].
  split; [reflexivity|]. split; [apply H1; reflexivity | apply H2].
Defined.

(** ** Fresh tab identifiers *)

Lemma tab_name_inj n m : tab_name n = tab_name m → n = m.
Proof.
  unfold tab_name. intros H. apply (inj (String.append "tab-")) in H.
  by apply (inj pretty) in H.
Qed.

Lemma dispatch_tab_counter ev st :
  tab_counter st ≤ tab_counter (dispatch ev st).2.
Proof.
  destruct ev as [k|cursor value user].
  - rewrite dispatch_key. destruct (binding k) as [[]|]; simpl; try done.
    + lia.
    + unfold action_close_tab. unfold_m. simpl. by case_decide.
  - destruct (on_select_changed_effect cursor value user st) as [[Hc _] _].
    simpl. by rewrite Hc.
Qed.

Lemma dispatch_new_tab_counter k st :
  binding k = Some new_tab →
  tab_counter (dispatch (Key k) st).2 = S (tab_counter st).
Proof. intros H. rewrite dispatch_key, H. simpl. lia. Qed.

Lemma generated_tab_ids_bound evs st x :
  x ∈ generated_tab_ids evs st → ∃ n, tab_counter st ≤ n ∧ x = tab_name n.
Proof.
  revert st. induction evs as [|ev evs IH]; intros st; cbn [generated_tab_ids].
  { by intros ?%elem_of_nil. }
  intros [Hx|Hx]%elem_of_app.
  - destruct ev as [k|]; [|by apply elem_of_nil in Hx].
    destruct (binding k) as [[]|]; try by apply elem_of_nil in Hx.
    apply list_elem_of_singleton in Hx. eauto.
  - pose proof (dispatch_tab_counter ev st) as Hle.
    destruct (dispatch ev st) as [[[]|e] st']; [|by apply elem_of_nil in Hx].
    destruct (IH _ Hx) as (n & Hn & ->). exists n. simpl in Hle. split; [lia|done].
Qed.

Lemma generated_tab_ids_NoDup evs st : NoDup (generated_tab_ids evs st).
Proof.
  revert st. induction evs as [|ev evs IH]; intros st;
    cbn [generated_tab_ids]; [constructor|].
  assert (Hrest : NoDup (match dispatch ev st with
                         | (Ok _, st') => generated_tab_ids evs st'
                         | (Raise _, _) => []
                         end)).
  { destruct (dispatch ev st) as [[[]|e] st']; [apply IH|constructor]. }
  destruct ev as [k|]; [|exact Hrest].
  destruct (binding k) as [[]|] eqn:Ek; try exact Hrest.
  apply NoDup_cons. split; [|exact Hrest].
  pose proof (dispatch_new_tab_counter k st Ek) as Hc.
  destruct (dispatch (Key k) st) as [[[]|e] st']; [|by intros ?%elem_of_nil].
  intros (n & Hn & Heq%tab_name_inj)%generated_tab_ids_bound.
  simpl in Hc. lia.
Qed.

Lemma created_tab_ids_generated evs st :
  created_tab_ids evs st = generated_tab_ids evs st.
Proof.
  revert st. induction evs as [|ev evs IH]; intros st; [done|].
  cbn [created_tab_ids generated_tab_ids]. f_equal.
  - destruct ev as [k|]; [|done]. unfold is_new_tab.
    rewrite dispatch_key. by destruct (binding k) as [[]|].
  - destruct (dispatch ev st) as [[[]|e] st']; [apply IH|done].
Qed.

(** C9. Each identifier [action_new_tab] generates differs from all it
    generated before.  The identifier the action gives the new tab, focuses
    and announces is made from [tab_counter]; every call of the action
    increases the counter by one and nothing decreases it; so the
    identifiers the action focused in the course of a run are all
    different. *)
Theorem new_tab_ids_distinct :
  (∀ st,
     let st' := (action_new_tab st).2 in
     active (tabs st') = tab_name (tab_counter st)
     ∧ tab_label <$> last (tab_list (tabs st')) = Some (active (tabs st'))
     ∧ last (notifications st')
       = Some ("New tab created: " +:+ active (tabs st'))
     ∧ tab_counter st' = S (tab_counter st))
  ∧ (∀ ev st, tab_counter st ≤ tab_counter (dispatch ev st).2)
  ∧ (∀ evs st, NoDup (created_tab_ids evs st)).
Proof.
  split; [|split].
  - intros st st'. subst st'. rewrite action_new_tab_run.
    cbn [snd tabs tab_counter notifications Tabs_set_active Tabs_add_tab
         active tab_list].
    rewrite !last_snoc. cbn [fmap option_fmap option_map tab_label].
    repeat split; lia.
  - apply dispatch_tab_counter.
  - intros evs st. rewrite created_tab_ids_generated.
    apply generated_tab_ids_NoDup.
Qed.

Example created_tab_ids_example :
  created_tab_ids [Key "ctrl+n"; Key "ctrl+x"; Key "ctrl+n"; Key "d";
                   Key "ctrl+n"] PyxTerm_init
  = ["tab-2"; "tab-3"; "tab-4"].
Proof. reflexivity. Qed.

Example generated_tab_ids_example :
  generated_tab_ids [Key "ctrl+n"; Key "ctrl+x"; Key "ctrl+n"] PyxTerm_init
  = ["tab-2"; "tab-3"].
Proof. reflexivity. Qed.

(** ** The shape of the stored records *)

Lemma dispatch_record_shape ev st :
  record_shape st → record_shape (dispatch ev st).2.
Proof.
  intros Hs. destruct ev as [k|cursor value user].
  - rewrite dispatch_key. destruct (binding k) as [a|]; [|done].
    destruct (run_action_frame a st) as (_ & Hc & _).
    unfold record_shape. by rewrite Hc.
  - unfold record_shape. cbn [dispatch].
    destruct (on_select_changed_effect cursor value user st)
      as [_ [(_ & Hc & _)|[(d & l & _ & Hm & _ & _ & Hc & _)
             |[(n & d & l & _ & _ & Hm & _ & _ & Hc & _)
              |(n & _ & _ & _ & _ & Hc & _)]]]];
      rewrite Hc; intros j r Hj.
    + by apply (Hs j).
    + apply ConnectionModal_saved in Hm as [Hd _].
      apply lookup_insert_Some in Hj as [[_ <-]|[_ Hj]]; [done|].
      by apply (Hs j).
    + apply ConnectionModal_saved in Hm as [Hd _].
      apply lookup_insert_Some in Hj as [[_ <-]|[_ Hj]]; [done|].
      by apply (Hs j).
    + apply lookup_delete_Some in Hj as [_ Hj]. by apply (Hs j).
Qed.

(** C3. Every value of the connection mapping is a record with exactly the
    fields host, port, label, group and password: this holds of whatever
    the Save button of the modal produces, each event keeps it, and so it
    holds after every run of the application. *)
Theorem stored_records_have_five_fields :
  (∀ cd user d, ConnectionModal cd user = Some (Some d) → dom d = FIELDS)
  ∧ (∀ ev st, record_shape st → record_shape (dispatch ev st).2)
  ∧ (∀ evs k d,
       connections (final evs PyxTerm_init) !! k = Some d → dom d = FIELDS).
Proof.
  split; [|split].
  - intros cd user d H. by apply ConnectionModal_saved in H as [? _].
  - apply dispatch_record_shape.
  - intros evs. apply (run_invariant record_shape).
    + apply dispatch_record_shape.
    + intros k d. unfold PyxTerm_init. cbn [connections].
      by rewrite lookup_empty.
Qed.

Lemma stored_records_have_five_fields_witness :
  ∃ d,
    connections (final [SelectChanged None "add" (save_as db1);
                        SelectChanged (Some 1) "edit" (save_as web)]
                       PyxTerm_init) !! 1 = Some d
    ∧ dom d = FIELDS.
Proof.
  eexists. split; [vm_compute; reflexivity|].
  eapply (proj2 (proj2 stored_records_have_five_fields)
            [SelectChanged None "add" (save_as db1);
             SelectChanged (Some 1) "edit" (save_as web)] 1).
  vm_compute. reflexivity.
Defined.

(** ** The store follows the tree *)

Lemma node_ids_update_node n f t :
  (∀ x, node_id (f x) = node_id x) →
  node_ids (update_node n f t) = node_ids t.
Proof.
  intros Hf. unfold node_ids, update_node. simpl.
  rewrite <- list_fmap_compose. apply list_fmap_ext.
  intros i x _. simpl. by case_decide.
Qed.

Lemma node_ids_root_add l t :
  node_ids (Tree_root_add l t).2 = node_ids t ++ [current_id t].
Proof. unfold node_ids. simpl. by rewrite fmap_app. Qed.

Lemma node_ids_remove n t k :
  k ∈ node_ids (Tree_remove n t) ↔ k ∈ node_ids t ∧ k ≠ n.
Proof.
  unfold node_ids, Tree_remove. simpl. rewrite !list_elem_of_fmap. split.
  - intros (x & -> & [Hx Hin]%list_elem_of_filter). eauto.
  - intros [(x & -> & Hin) Hne]. exists x. split; [done|].
    by apply list_elem_of_filter.
Qed.

Lemma selected_connection_Some cursor n :
  selected_connection cursor = Some n ↔ cursor = Some n ∧ n ≠ root_id.
Proof.
  unfold selected_connection. destruct cursor as [m|]; [|naive_solver].
  case_decide; naive_solver.
Qed.

Lemma cursor_ok_selected st cursor value user n :
  cursor_ok st (SelectChanged cursor value user) = true →
  selected_connection cursor = Some n →
  n ∈ node_ids (tree st).
Proof.
  intros Hok [-> Hn]%selected_connection_Some. simpl in Hok.
  apply orb_true_iff in Hok as [H|H].
  - by apply bool_decide_eq_true in H.
  - by apply bool_decide_eq_true in H.
Qed.

Lemma dispatch_store_matches_tree ev st :
  cursor_ok st ev = true →
  store_matches_tree st → store_matches_tree (dispatch ev st).2.
Proof.
  intros Hok Hs. destruct ev as [k|cursor value user].
  - rewrite dispatch_key. destruct (binding k) as [a|]; [|done].
    destruct (run_action_frame a st) as (_ & Hc & Ht).
    unfold store_matches_tree. by rewrite Hc, Ht.
  - unfold store_matches_tree. cbn [dispatch].
    destruct (on_select_changed_effect cursor value user st)
      as [_ [(_ & Hc & Ht)|[(d & l & _ & _ & _ & _ & Hc & Ht)
             |[(n & d & l & _ & Hsel & _ & _ & _ & Hc & Ht)
              |(n & _ & _ & _ & _ & Hc & Ht)]]]];
      rewrite Hc, Ht; intros j.
    + apply Hs.
    + rewrite node_ids_update_node, node_ids_root_add by done.
      rewrite lookup_insert_is_Some, elem_of_app, list_elem_of_singleton.
      rewrite (Hs j). destruct (decide (current_id (tree st) = j)); naive_solver.
    + rewrite node_ids_update_node by done.
      rewrite lookup_insert_is_Some, (Hs j).
      pose proof (cursor_ok_selected _ _ _ _ _ Hok Hsel).
      destruct (decide (n = j)); naive_solver.
    + rewrite node_ids_remove, <- (Hs j).
      unfold is_Some. setoid_rewrite lookup_delete_Some. naive_solver.
Qed.

Lemma reachable_store_matches_tree st : reachable st → store_matches_tree st.
Proof.
  induction 1 as [|st ev _ IH Hok].
  - intros k. unfold PyxTerm_init, node_ids. simpl.
    rewrite lookup_empty, elem_of_nil. split; [by intros []|done].
  - by apply dispatch_store_matches_tree.
Qed.

(** From a reachable state, with the cursor on a node of the tree, no handler
    raises. *)
Lemma reachable_no_raise st ev :
  reachable st → cursor_ok st ev = true → (dispatch ev st).1 = Ok ().
Proof.
  intros Hs%reachable_store_matches_tree Hok.
  destruct ev as [k|cursor value user].
  - rewrite dispatch_key. destruct (binding k) as [a|]; [|done].
    by destruct (run_action_frame a st) as (? & _).
  - cbn [dispatch].
    destruct (on_select_changed_effect cursor value user st)
      as [_ [(? & _)|[(d & l & _ & _ & _ & ? & _)
             |[(n & d & l & _ & _ & _ & _ & ? & _)
              |(n & _ & Hsel & _ & Ho & _)]]]]; try done.
    rewrite Ho.
    pose proof (cursor_ok_selected _ _ _ _ _ Hok Hsel) as Hin.
    apply Hs in Hin as [d ->]. done.
Qed.

(** ** Removal *)

(** C4. When the removal of the selected connection is confirmed, its
    identifier is no longer a key of the connection mapping and the records
    under all other identifiers are as they were. *)
Theorem confirmed_removal_deletes_only_selected
    (st : PyxTerm) (cursor : option NodeID) (n : NodeID) (user : reply) :
  selected_connection cursor = Some n →
  ConfirmModal user = Some true →
  let st' := (on_select_changed cursor "remove" user st).2 in
  connections st' = delete n (connections st)
  ∧ connections st' !! n = None
  ∧ (∀ k, k ≠ n → connections st' !! k = connections st !! k).
Proof.
  intros Hsel Hyes st'. subst st'.
  rewrite on_select_changed_remove, Hsel, Hyes.
  assert (connections (handle_remove_connection n true st).2
          = delete n (connections st)) as ->.
  { destruct (connections st !! n) as [d|] eqn:Ed.
    - by rewrite (handle_remove_connection_present _ _ _ Ed).
    - rewrite (handle_remove_connection_absent _ _ Ed). simpl.
      symmetry. by apply delete_id. }
  split; [done|]. split; [apply lookup_delete_eq|].
  intros k Hk. by apply lookup_delete_ne.
Qed.

Lemma confirmed_removal_deletes_only_selected_witness :
  let st := final [SelectChanged None "add" (save_as db1);
                   SelectChanged None "add" (save_as web)] PyxTerm_init in
  let st' := (on_select_changed (Some 1) "remove" (press "yes") st).2 in
  connections st' !! 1 = None
  ∧ connections st' !! 2 = connections st !! 2.
Proof.
  intros st st'.
  destruct (confirmed_removal_deletes_only_selected st (Some 1) 1 (press "yes")
              eq_refl eq_refl) as (_ & H1 & H2).
  split; [exact H1 | apply H2; lia].
Defined.

(** ** Editing *)

(** In a state the application reaches, a selected connection node has a
    record. *)
Lemma reachable_selected_has_record st cursor value user n :
  reachable st →
  cursor_ok st (SelectChanged cursor value user) = true →
  selected_connection cursor = Some n →
  is_Some (connections st !! n).
Proof.
  intros Hs%reachable_store_matches_tree Hok Hsel.
  apply Hs. by eapply cursor_ok_selected.
Qed.

(** C5. Editing a connection does not change its identifier.  When the
    selected node has a record in the store, whatever the state and
    whatever the form is answered, the edit leaves the set of identifiers of
    the mapping and the identifiers of the tree's nodes as they were, a
    saved record is stored under the identifier of the selected node, and
    all other records stay. *)
Theorem edit_keeps_identifier
    (st : PyxTerm) (cursor : option NodeID) (n : NodeID) (user : reply) :
  selected_connection cursor = Some n →
  is_Some (connections st !! n) →
  let st' := (on_select_changed cursor "edit" user st).2 in
  dom (connections st') = dom (connections st)
  ∧ node_ids (tree st') = node_ids (tree st)
  ∧ (∀ k, k ≠ n → connections st' !! k = connections st !! k)
  ∧ (∀ d, ConnectionModal (Some (dict_get (connections st) n ∅)) user
          = Some (Some d) →
          connections st' !! n = Some d).
Proof.
  intros Hsel Hin st'. subst st'.
  rewrite on_select_changed_edit, Hsel.
  destruct (ConnectionModal _ user) as [[d|]|] eqn:E; try by auto.
  destruct (ConnectionModal_saved _ _ _ E) as (_ & _ & _ & Hl & _).
  rewrite (handle_edit_connection_run _ _ _ _ Hl). simpl.
  split; [|split; [|split]].
  - rewrite dom_insert_L. apply elem_of_dom in Hin. set_solver.
  - by apply node_ids_update_node.
  - intros k Hk. by apply lookup_insert_ne.
  - intros ? [= <-]. apply lookup_insert_eq.
Qed.

Lemma edit_keeps_identifier_witness :
  let st := (dispatch (SelectChanged None "add" (save_as db1)) PyxTerm_init).2 in
  let st' := (on_select_changed (Some 1) "edit" (save_as web) st).2 in
  dom (connections st') = dom (connections st)
  ∧ node_ids (tree st') = node_ids (tree st)
  ∧ connections st' !! 1
    = Some (<["host":="example.org"]> (<["port":="70000"]> (<["label":="web"]>
           (<["group":=""]> (<["password":=""]> ∅))))).
Proof.
  intros st st'.
  assert (Hin : is_Some (connections st !! 1)).
  { eexists. reflexivity. }
  destruct (edit_keeps_identifier st (Some 1) 1 (save_as web) eq_refl Hin)
    as (H1 & H2 & _ & H3).
  split; [exact H1|]. split; [exact H2|]. apply H3. reflexivity.
Defined.

(** ** Nothing selected *)

(** C10. With no node selected, or with the root selected, the edit and
    remove entries of the menu leave the connection mapping, and the rest of
    the application, as they were, apart from the notification they emit. *)
Theorem no_selection_leaves_store
    (st : PyxTerm) (cursor : option NodeID) (value : string) (user : reply) :
  cursor = None ∨ cursor = Some root_id →
  value = "edit" ∨ value = "remove" →
  on_select_changed cursor value user st
  = (Ok (),
     mkApp (tab_counter st) (connections st) (theme st) (sidebar_hidden st)
           (tabs st) (tree st)
           (notifications st ++ ["No connection selected"]))
  ∧ connections (on_select_changed cursor value user st).2 = connections st.
Proof.
  intros Hc Hv.
  assert (selected_connection cursor = None) as Hsel.
  { by destruct Hc as [-> | ->]. }
  destruct Hv as [-> | ->].
  - rewrite on_select_changed_edit, Hsel. done.
  - rewrite on_select_changed_remove, Hsel. done.
Qed.

Lemma no_selection_leaves_store_witness :
  let st := (dispatch (SelectChanged None "add" (save_as db1)) PyxTerm_init).2 in
  connections (on_select_changed (Some root_id) "remove" (press "yes") st).2
  = connections st
  ∧ connections (on_select_changed None "edit" (save_as web) st).2
    = connections st.
Proof.
  intros st. split.
  - apply (no_selection_leaves_store st (Some root_id) "remove" (press "yes"));
      [right; reflexivity | right; reflexivity].
  - apply (no_selection_leaves_store st None "edit" (save_as web));
      [left; reflexivity | left; reflexivity].
Defined.

(** ** The port field *)

(** The record a Save produces holds the text of the Port input, whatever it
    is. *)
Lemma saved_port cd user d :
  ConnectionModal cd user = Some (Some d) →
  d !! "port" = Some (port_input (typing user (ConnectionModal_compose cd))).
Proof. intros H. by apply ConnectionModal_saved in H as (_ & _ & ? & _). Qed.

Example port_in_range_example :
  port_in_range {[ "port" := "22" ]} = true
  ∧ port_in_range {[ "port" := "0" ]} = false
  ∧ port_in_range {[ "port" := "ssh" ]} = false.
Proof. by vm_compute. Qed.

(** C2, as stated, fails: the port of a stored record need not be a number
    between 1 and 65535.  Saving the text 70000 in the Port input stores
    it. *)
Lemma port_range_counterexample :
  ¬ (∀ evs k d,
       connections (final evs PyxTerm_init) !! k = Some d →
       port_in_range d = true).
Proof.
  intros H.
  specialize (H [SelectChanged None "add" (save_as web)] 1 _ eq_refl).
  vm_compute in H. discriminate.
Qed.

(** C2, amended.  Every record the add and edit operations store has a port
    field, and it holds the text of the modal's Port input as it was when
    Save was pressed; any text at all can be stored this way. *)
Theorem stored_port_is_the_typed_text :
  (∀ st cursor user d,
     ConnectionModal None user = Some (Some d) →
     connections (on_select_changed cursor "add" user st).2
       !! current_id (tree st) = Some d
     ∧ d !! "port"
       = Some (port_input (typing user (ConnectionModal_compose None))))
  ∧ (∀ st cursor n user d,
       selected_connection cursor = Some n →
       ConnectionModal (Some (dict_get (connections st) n ∅)) user
       = Some (Some d) →
       connections (on_select_changed cursor "edit" user st).2 !! n = Some d
       ∧ d !! "port"
         = Some (port_input (typing user (ConnectionModal_compose
                   (Some (dict_get (connections st) n ∅))))))
  ∧ (∀ st text, ∃ d,
       connections (on_select_changed None "add"
                      (save_as (mkForm "" text "" "" "")) st).2
         !! current_id (tree st) = Some d
       ∧ d !! "port" = Some text).
Proof.
  split; [|split].
  - intros st cursor user d E. split; [|by apply saved_port].
    destruct (ConnectionModal_saved _ _ _ E) as (_ & _ & _ & Hl & _).
    rewrite on_select_changed_add, E, (handle_add_connection_run _ _ _ Hl).
    apply lookup_insert_eq.
  - intros st cursor n user d Hsel E. split; [|by apply saved_port].
    destruct (ConnectionModal_saved _ _ _ E) as (_ & _ & _ & Hl & _).
    rewrite on_select_changed_edit, Hsel, E,
      (handle_edit_connection_run _ _ _ _ Hl).
    apply lookup_insert_eq.
  - intros st text. eexists. split.
    + rewrite on_select_changed_add. unfold ConnectionModal, save_as. simpl.
      erewrite handle_add_connection_run by (by simplify_map_eq).
      apply lookup_insert_eq.
    + by simplify_map_eq.
Qed.

Lemma stored_port_is_the_typed_text_witness :
  ∃ d,
    connections (on_select_changed None "add" (save_as web) PyxTerm_init).2
      !! 1 = Some d
    ∧ d !! "port" = Some "70000".
Proof.
  eexists.
  apply (proj1 stored_port_is_the_typed_text PyxTerm_init None (save_as web)).
  reflexivity.
Defined.

(** ** Retrieving a record that is not there *)

(** C6, as stated, fails: retrieving with an identifier that is not in the
    store raises nothing. *)
Lemma retrieval_counterexample :
  ¬ (∀ st n, connections st !! n = None →
             ∃ e, (connection_data n st).1 = Raise e).
Proof.
  intros H. destruct (H PyxTerm_init 7 eq_refl) as [e He]. discriminate.
Qed.

(** C6, amended.  Retrieving a record by an identifier that is not in the
    store gives the caller the empty record and raises nothing; the store
    is not changed by it. *)
Theorem retrieval_of_absent_gives_empty (st : PyxTerm) (n : NodeID) :
  connections st !! n = None → connection_data n st = (Ok ∅, st).
Proof.
  intros H. unfold connection_data, gets, dict_get. by rewrite H.
Qed.

Lemma retrieval_of_absent_gives_empty_witness :
  connection_data 7 PyxTerm_init = (Ok ∅, PyxTerm_init).
Proof. apply retrieval_of_absent_gives_empty. reflexivity. Defined.

(** ** The handlers and the store operations *)

Lemma expected_app k ops1 ops2 before :
  expected k (ops1 ++ ops2) before = expected k ops2 (expected k ops1 before).
Proof.
  revert before. induction ops1 as [|op ops1 IH]; intros before; [done|].
  simpl. by rewrite expected_cons, IH, <- expected_cons.
Qed.

Lemma dispatch_lookup ev st k :
  connections (dispatch ev st).2 !! k
  = expected k (store_ops_of ev st) (connections st !! k).
Proof.
  destruct ev as [key|cursor value user].
  - rewrite dispatch_key. destruct (binding key) as [a|]; [|done].
    by destruct (run_action_frame a st) as (_ & -> & _).
  - cbn [dispatch store_ops_of].
    destruct (decide (value = "add")) as [->|Ha].
    { rewrite on_select_changed_add.
      destruct (ConnectionModal None user) as [[d|]|] eqn:E; try done.
      destruct (ConnectionModal_saved _ _ _ E) as (_ & _ & _ & Hl & _).
      rewrite (handle_add_connection_run _ _ _ Hl).
      by rewrite <- (store_step_lookup (AddConnection _ d) st). }
    destruct (decide (value = "edit")) as [->|He].
    { rewrite on_select_changed_edit.
      destruct (selected_connection cursor) as [n|]; [|done].
      destruct (ConnectionModal _ user) as [[d|]|] eqn:E; try done.
      destruct (ConnectionModal_saved _ _ _ E) as (_ & _ & _ & Hl & _).
      rewrite (handle_edit_connection_run _ _ _ _ Hl).
      by rewrite <- (store_step_lookup (EditConnection _ d) st). }
    destruct (decide (value = "remove")) as [->|Hr].
    { rewrite on_select_changed_remove.
      destruct (selected_connection cursor) as [n|]; [|done].
      destruct (ConfirmModal user) as [[]|]; try done.
      rewrite <- (store_step_lookup (RemoveConnection n) st).
      cbn [store_step]. rewrite delitem_connections.
      destruct (connections st !! n) as [d|] eqn:Ed.
      - by rewrite (handle_remove_connection_present _ _ _ Ed).
      - rewrite (handle_remove_connection_absent _ _ Ed). simpl.
        by rewrite delete_id. }
    by rewrite on_select_changed_other.
Qed.

Lemma run_lookup evs st k :
  connections (final evs st) !! k
  = expected k (store_trace evs st) (connections st !! k).
Proof.
  unfold final. revert st. induction evs as [|ev evs IH]; intros st; [done|].
  rewrite run_cons. cbn [store_trace].
  rewrite expected_app, <- dispatch_lookup.
  destruct (dispatch ev st) as [[[]|e] st']; simpl; [apply IH|done].
Qed.

(** C1. After any sequence of add, edit and remove operations on the
    connection mapping, looking an identifier up gives the record written
    by the last operation on that identifier, nothing if that operation was
    a removal, and what was there before if no operation was on it.  This
    holds of the three store operations run in any order, where the sequence
    that counts is the one the run gets to (the whole sequence whenever no
    operation raises), and of the operations the handlers perform in any run
    of the application. *)
Theorem lookup_reflects_last_mutation :
  (∀ ops st k,
     connections (run_store ops st).2 !! k
     = expected k (attempted ops st) (connections st !! k))
  ∧ (∀ ops st, (run_store ops st).1 = Ok () → attempted ops st = ops)
  ∧ (∀ evs st k,
       connections (final evs st) !! k
       = expected k (store_trace evs st) (connections st !! k)).
Proof.
  split; [apply run_store_lookup|]. split; [apply attempted_all|].
  apply run_lookup.
Qed.

Lemma lookup_reflects_last_mutation_witness :
  let r1 : gmap string string := {[ "label" := "db1" ]} in
  let r2 : gmap string string := {[ "label" := "db2" ]} in
  let ops := [AddConnection 1 r1; AddConnection 2 r1; EditConnection 1 r2;
              RemoveConnection 2] in
  connections (run_store ops PyxTerm_init).2 !! 1 = Some r2
  ∧ connections (run_store ops PyxTerm_init).2 !! 2 = None
  ∧ connections (run_store ops PyxTerm_init).2 !! 3 = None
  ∧ attempted ops PyxTerm_init = ops.
Proof.
  intros r1 r2 ops.
  destruct lookup_reflects_last_mutation as (Hlook & Hall & _).
  split; [rewrite Hlook; reflexivity|].
  split; [rewrite Hlook; reflexivity|].
  split; [rewrite Hlook; reflexivity|].
  apply Hall. reflexivity.
Defined.

Example store_trace_example :
  op_key <$> store_trace [SelectChanged None "add" (save_as db1);
                          SelectChanged None "add" (save_as web);
                          SelectChanged (Some 1) "edit" (press "cancel");
                          SelectChanged (Some 2) "edit" (press "save");
                          SelectChanged (Some 0) "remove" (press "yes");
                          SelectChanged (Some 1) "remove" (press "yes");
                          SelectChanged (Some 1) "remove" (press "yes");
                          SelectChanged None "add" (save_as web)] PyxTerm_init
  = [1; 2; 2; 1; 1].
Proof. vm_compute. reflexivity. Qed.

(** ** The edit form starts from the stored record *)

(** Opening the edit form on a stored record and pressing Save without
    typing gives the record back: every field, the password among them, is
    kept as the text that was typed. *)
Lemma save_without_typing (d : gmap string string) :
  dom d = FIELDS → ConnectionModal (Some d) (press "save") = Some (Some d).
Proof.
  intros Hd.
  assert (Hin : ∀ k, k ∈ FIELDS → ∃ v, d !! k = Some v).
  { intros k Hk. rewrite <- Hd in Hk. by apply elem_of_dom in Hk. }
  destruct (Hin "host") as [h Hh]; [unfold FIELDS; set_solver|].
  destruct (Hin "port") as [p Hp]; [unfold FIELDS; set_solver|].
  destruct (Hin "label") as [l Hl]; [unfold FIELDS; set_solver|].
  destruct (Hin "group") as [g Hg]; [unfold FIELDS; set_solver|].
  destruct (Hin "password") as [w Hw]; [unfold FIELDS; set_solver|].
  unfold ConnectionModal, ConnectionModal_compose, press. cbn [pressed typing].
  rewrite (truthy_lookup _ _ _ Hh). unfold dict_get. cbn [from_option].
  unfold id.
  rewrite Hh, Hp, Hl, Hg, Hw.
  unfold ConnectionModal_on_button_pressed. simpl. do 2 f_equal.
  apply map_eq. intros k.
  destruct (decide (k ∈ FIELDS)) as [Hk|Hk].
  - unfold FIELDS in Hk.
    rewrite !elem_of_union, !elem_of_singleton in Hk.
    destruct Hk as [[[[->| ->]| ->]| ->]| ->]; by simplify_map_eq.
  - assert (d !! k = None) as ->.
    { apply not_elem_of_dom. by rewrite Hd. }
    unfold FIELDS in Hk.
    rewrite !elem_of_union, !elem_of_singleton in Hk.
    rewrite !lookup_insert_ne by naive_solver. apply lookup_empty.
Qed.

(** ** The application's tab counter and the tab bar's *)

Lemma Tabs_remove_tab_counter i t :
  tabs_counter (Tabs_remove_tab i t) = tabs_counter t.
Proof.
  unfold Tabs_remove_tab. case_decide; [done|].
  by destruct (tab_index i (tab_list t)).
Qed.

(** The identifier [action_new_tab] makes up is the one the tab bar gives
    the tab it adds, so setting [active] to it focuses the new tab. *)
Lemma reachable_tab_counter st :
  reachable st → tab_counter st = S (tabs_counter (tabs st)).
Proof.
  induction 1 as [|st ev _ IH Hok]; [done|].
  destruct ev as [k|cursor value user].
  - rewrite dispatch_key. destruct (binding k) as [[]|]; try done.
    + simpl. lia.
    + cbn [run_action]. rewrite action_close_tab_tabs.
      assert (tab_counter (action_close_tab st).2 = tab_counter st) as ->.
      { unfold action_close_tab. unfold_m. simpl. by case_decide. }
      case_decide; [|done]. by rewrite Tabs_remove_tab_counter.
  - destruct (on_select_changed_effect cursor value user st) as [[Hc Ht] _].
    cbn [dispatch]. by rewrite Hc, Ht.
Qed.

Lemma new_tab_is_focused st :
  reachable st →
  let t := tabs (action_new_tab st).2 in
  tab_id <$> last (tab_list t) = Some (active t).
Proof.
  intros Hr%reachable_tab_counter t. subst t. simpl.
  rewrite last_snoc. simpl. by rewrite Hr.
Qed.

(** * Further properties of the handlers *)

(** ** Modals that are left without saving or confirming *)

Lemma ConnectionModal_not_saved cd user :
  pressed user ≠ "save" →
  ConnectionModal cd user = Some None ∨ ConnectionModal cd user = None.
Proof.
  intros H. unfold ConnectionModal, ConnectionModal_on_button_pressed.
  repeat case_decide; auto; done.
Qed.

Lemma ConfirmModal_not_yes user :
  pressed user ≠ "yes" →
  ConfirmModal user = Some false ∨ ConfirmModal user = None.
Proof.
  intros H. unfold ConfirmModal, ConfirmModal_on_button_pressed.
  repeat case_decide; auto; done.
Qed.

(** X1. Leaving the connection form by anything but Save (Cancel, in
    particular) changes nothing: after Add, and after Edit on a selected
    connection, the application is exactly as before and nothing is
    notified. *)
Theorem unsaved_form_changes_nothing
    (st : PyxTerm) (cursor : option NodeID) (user : reply) :
  pressed user ≠ "save" →
  on_select_changed cursor "add" user st = (Ok (), st)
  ∧ (∀ n, selected_connection cursor = Some n →
          on_select_changed cursor "edit" user st = (Ok (), st)).
Proof.
  intros H. split.
  - rewrite on_select_changed_add.
    by destruct (ConnectionModal_not_saved None user H) as [-> | ->].
  - intros n Hsel. rewrite on_select_changed_edit, Hsel.
    by destruct (ConnectionModal_not_saved
                   (Some (dict_get (connections st) n ∅)) user H) as [-> | ->].
Qed.

Lemma unsaved_form_changes_nothing_witness :
  let st := (dispatch (SelectChanged None "add" (save_as db1)) PyxTerm_init).2 in
  on_select_changed None "add" (press "cancel") st = (Ok (), st)
  ∧ on_select_changed (Some 1) "edit" (press "cancel") st = (Ok (), st).
Proof.
  intros st.
  destruct (unsaved_form_changes_nothing st None (press "cancel")) as [H _];
    [done|].
  destruct (unsaved_form_changes_nothing st (Some 1) (press "cancel")) as [_ H'];
    [done|].
  split; [exact H | apply (H' 1); reflexivity].
Defined.

(** X2. A removal that is not confirmed with Yes changes nothing: the
    selected connection, its node and every other part of the application
    stay as they were and nothing is notified. *)
Theorem unconfirmed_removal_changes_nothing
    (st : PyxTerm) (cursor : option NodeID) (n : NodeID) (user : reply) :
  selected_connection cursor = Some n →
  pressed user ≠ "yes" →
  on_select_changed cursor "remove" user st = (Ok (), st).
Proof.
  intros Hsel H. rewrite on_select_changed_remove, Hsel.
  by destruct (ConfirmModal_not_yes user H) as [-> | ->].
Qed.

Lemma unconfirmed_removal_changes_nothing_witness :
  let st := (dispatch (SelectChanged None "add" (save_as db1)) PyxTerm_init).2 in
  on_select_changed (Some 1) "remove" (press "no") st = (Ok (), st).
Proof.
  intros st.
  apply (unconfirmed_removal_changes_nothing st (Some 1) 1 (press "no"));
    [reflexivity | done].
Defined.

(** ** The form and the record *)

Lemma compose_of_saved inputs d :
  ConnectionModal_on_button_pressed "save" inputs = Some (Some d) →
  ConnectionModal_compose (Some d) = inputs.
Proof.
  unfold ConnectionModal_on_button_pressed. simpl. intros [= <-].
  unfold ConnectionModal_compose.
  erewrite truthy_lookup by (by simplify_map_eq).
  unfold dict_get. destruct inputs. simpl. by simplify_map_eq.
Qed.

(** X3. What is saved is what the edit form shows: the form composed from a
    record that Save produced has the five inputs exactly as they were when
    Save was pressed, the password with them; so right after a connection is
    added, the form composed for its node is the form that was saved. *)
Theorem saved_record_fills_the_form :
  (∀ cd user d,
     ConnectionModal cd user = Some (Some d) →
     ConnectionModal_compose (Some d) = typing user (ConnectionModal_compose cd))
  ∧ (∀ st cursor user d,
       ConnectionModal None user = Some (Some d) →
       let st' := (on_select_changed cursor "add" user st).2 in
       ConnectionModal_compose
         (Some (dict_get (connections st') (current_id (tree st)) ∅))
       = typing user (ConnectionModal_compose None)).
Proof.
  assert (H1 : ∀ cd user d,
     ConnectionModal cd user = Some (Some d) →
     ConnectionModal_compose (Some d) = typing user (ConnectionModal_compose cd)).
  { intros cd user d E. unfold ConnectionModal in E.
    assert (pressed user = "save") as Hp.
    { unfold ConnectionModal_on_button_pressed in E.
      by repeat case_decide. }
    rewrite Hp in E. by apply compose_of_saved. }
  split; [exact H1|].
  intros st cursor user d E st'. subst st'.
  destruct (ConnectionModal_saved _ _ _ E) as (_ & _ & _ & Hl & _).
  rewrite on_select_changed_add, E, (handle_add_connection_run _ _ _ Hl).
  unfold dict_get. cbn [connections snd]. rewrite lookup_insert_eq.
  by apply H1.
Qed.

Lemma saved_record_fills_the_form_witness :
  ConnectionModal_compose
    (Some (dict_get
             (connections (on_select_changed None "add" (save_as db1)
                             PyxTerm_init).2) 1 ∅))
  = db1.
Proof.
  eapply (proj2 saved_record_fills_the_form PyxTerm_init None (save_as db1)).
  reflexivity.
Defined.

(** X4. Opening the edit form on a stored record that has the five fields
    and pressing Save without typing leaves the connection mapping as it
    was. *)
Theorem save_without_typing_keeps_store
    (st : PyxTerm) (cursor : option NodeID) (n : NodeID)
    (d : gmap string string) :
  selected_connection cursor = Some n →
  connections st !! n = Some d →
  dom d = FIELDS →
  connections (on_select_changed cursor "edit" (press "save") st).2
  = connections st.
Proof.
  intros Hsel Hd Hdom.
  rewrite on_select_changed_edit, Hsel. unfold dict_get. rewrite Hd.
  cbn [from_option]. unfold id. rewrite (save_without_typing d Hdom).
  assert (∃ l, d !! "label" = Some l) as [l Hl].
  { apply elem_of_dom. rewrite Hdom. unfold FIELDS. set_solver. }
  rewrite (handle_edit_connection_run _ _ _ _ Hl). simpl.
  by apply insert_id.
Qed.

Lemma save_without_typing_keeps_store_witness :
  let st := (dispatch (SelectChanged None "add" (save_as db1)) PyxTerm_init).2 in
  connections (on_select_changed (Some 1) "edit" (press "save") st).2
  = connections st.
Proof.
  intros st.
  eapply (save_without_typing_keeps_store st (Some 1) 1);
    [reflexivity | reflexivity |].
  vm_compute. reflexivity.
Defined.

(** X5. Editing a node that has no record starts from the empty record:
    the form opens with five empty inputs, and Save without typing stores a
    record of five empty texts under the node's identifier, raising
    nothing. *)
Theorem edit_without_record_starts_empty
    (st : PyxTerm) (cursor : option NodeID) (n : NodeID) :
  selected_connection cursor = Some n →
  connections st !! n = None →
  ConnectionModal_compose (Some (dict_get (connections st) n ∅))
  = mkForm "" "" "" "" ""
  ∧ (on_select_changed cursor "edit" (press "save") st).1 = Ok ()
  ∧ connections (on_select_changed cursor "edit" (press "save") st).2
    = <[n:=empty_record]> (connections st).
Proof.
  intros Hsel Hn. unfold dict_get at 1. rewrite Hn. split; [done|].
  rewrite on_select_changed_edit, Hsel. unfold dict_get. rewrite Hn.
  cbn [from_option].
  assert (ConnectionModal (Some ∅) (press "save") = Some (Some empty_record))
    as -> by reflexivity.
  assert (empty_record !! "label" = Some "") as Hl by reflexivity.
  by rewrite (handle_edit_connection_run _ _ _ _ Hl).
Qed.

Lemma edit_without_record_starts_empty_witness :
  connections (on_select_changed (Some 4) "edit" (press "save") PyxTerm_init).2
  = <[4:=empty_record]> ∅.
Proof.
  apply (edit_without_record_starts_empty PyxTerm_init (Some 4) 4);
    reflexivity.
Defined.

(** ** The tree and the store stay in step *)

Lemma node_ids_remove_filter n t :
  node_ids (Tree_remove n t) = filter (λ i, i ≠ n) (node_ids t).
Proof.
  unfold node_ids, Tree_remove. cbn [children].
  induction (children t) as [|x l IH]; [done|].
  rewrite filter_cons. cbn [fmap list_fmap]. rewrite filter_cons.
  case_decide; cbn [fmap list_fmap]; by rewrite IH.
Qed.

Lemma elem_of_update_node x n f t :
  x ∈ children (update_node n f t) →
  ∃ y, y ∈ children t
       ∧ ((node_id y = n ∧ x = f y) ∨ (node_id y ≠ n ∧ x = y)).
Proof.
  unfold update_node. cbn [children].
  intros (y & -> & Hy)%list_elem_of_fmap. exists y. split; [done|].
  case_decide; auto.
Qed.

Lemma dispatch_in_sync ev st :
  cursor_ok st ev = true → in_sync st → in_sync (dispatch ev st).2.
Proof.
  intros Hok Hs.
  pose proof (dispatch_store_matches_tree ev st Hok (proj1 Hs)) as Hm.
  destruct Hs as (Hst & Hpos & Hb & Hnd & Hlab).
  split; [exact Hm|]. clear Hm.
  destruct ev as [k|cursor value user].
  { rewrite dispatch_key. destruct (binding k) as [a|]; [|done].
    destruct (run_action_frame a st) as (_ & Hc & Ht). by rewrite Hc, Ht. }
  cbn [dispatch].
  destruct (on_select_changed_effect cursor value user st)
    as [_ [(_ & Hc & Ht)|[(d & l & _ & _ & Hl & _ & Hc & Ht)
           |[(n & d & l & _ & Hsel & _ & Hl & _ & Hc & Ht)
            |(n & _ & _ & _ & _ & Hc & Ht)]]]]; rewrite Hc, Ht.
  - done.
  - rewrite node_ids_update_node, node_ids_root_add by done.
    cbn [update_node Tree_root_add snd current_id].
    assert (Hfresh : current_id (tree st) ∉ node_ids (tree st)).
    { intros Hin. rewrite Forall_forall in Hb. specialize (Hb _ Hin). lia. }
    split; [lia|]. split; [|split].
    + apply Forall_app. split.
      * eapply Forall_impl; [exact Hb|]. intros i Hi. simpl in Hi. lia.
      * apply Forall_singleton. lia.
    + apply NoDup_app. split; [done|]. split; [|apply NoDup_singleton].
      intros i Hi ->%list_elem_of_singleton. done.
    + intros x (y & [Hy|Hy%list_elem_of_singleton]%elem_of_app & Hx)
        %elem_of_update_node.
      * assert (node_id y ≠ current_id (tree st)) as Hne.
        { intros Heq. apply Hfresh. rewrite <- Heq.
          unfold node_ids. apply list_elem_of_fmap. eauto. }
        destruct Hx as [[? _]|[_ ->]]; [done|].
        rewrite lookup_insert_ne by done. by apply Hlab.
      * subst y. destruct Hx as [[_ ->]|[? _]]; [|done]. simpl.
        rewrite lookup_insert_eq. eauto.
  - rewrite node_ids_update_node by done. cbn [update_node current_id].
    split; [done|]. split; [done|]. split; [done|].
    intros x (y & Hy & [[Heq ->]|[Hne ->]])%elem_of_update_node.
    + simpl. rewrite Heq, lookup_insert_eq. eauto.
    + rewrite lookup_insert_ne by done. by apply Hlab.
  - rewrite node_ids_remove_filter. cbn [Tree_remove current_id].
    split; [done|]. split.
    { rewrite Forall_forall in Hb. apply Forall_forall.
      intros i [_ Hi]%list_elem_of_filter. by apply Hb. }
    split; [by apply NoDup_filter|].
    intros x [Hne Hx]%list_elem_of_filter.
    rewrite lookup_delete_ne by done. by apply Hlab.
Qed.

Lemma init_in_sync : in_sync PyxTerm_init.
Proof.
  split; [|split; [|split; [|split]]].
  - intros k. unfold PyxTerm_init, node_ids. simpl.
    rewrite lookup_empty, elem_of_nil. split; [by intros []|done].
  - simpl. lia.
  - constructor.
  - constructor.
  - intros x Hx. by apply elem_of_nil in Hx.
Qed.

Lemma reachable_in_sync st : reachable st → in_sync st.
Proof.
  induction 1 as [|st ev _ IH Hok]; [apply init_in_sync|].
  by apply dispatch_in_sync.
Qed.

(** An invariant of the handlers under a cursor on the tree is an invariant
    of every valid run. *)
Lemma valid_run_invariant (P : PyxTerm → Prop) :
  (∀ ev st, cursor_ok st ev = true → P st → P (dispatch ev st).2) →
  ∀ evs st, valid_run evs st = true → P st → P (final evs st).
Proof.
  intros Hstep evs. unfold final.
  induction evs as [|ev evs IH]; intros st Hv HP; [done|].
  cbn [valid_run] in Hv. apply andb_true_iff in Hv as [Hok Hv].
  rewrite run_cons. specialize (Hstep ev st Hok HP).
  destruct (dispatch ev st) as [[[]|e] st']; simpl in *; auto.
Qed.

Lemma valid_run_reachable evs st :
  reachable st → valid_run evs st = true → reachable (final evs st).
Proof.
  intros Hr Hv. revert Hr. apply valid_run_invariant; [|done].
  intros ev st'. intros. by apply reach_step.
Qed.

(** X6. In every state the application reaches, the tree and the store
    agree: the connection nodes have distinct identifiers, none of them the
    root's; the store has a record for each of these identifiers and for no
    other; and each node's label is the label field of its record. *)
Theorem tree_and_store_in_sync (st : PyxTerm) :
  reachable st →
  (∀ k, is_Some (connections st !! k) ↔ k ∈ node_ids (tree st))
  ∧ NoDup (node_ids (tree st))
  ∧ (root_id ∉ node_ids (tree st))
  ∧ (∀ x, x ∈ children (tree st) →
          ∃ d, connections st !! node_id x = Some d
               ∧ d !! "label" = Some (node_label x)).
Proof.
  intros (Hst & _ & Hb & Hnd & Hlab)%reachable_in_sync.
  split; [exact Hst|]. split; [exact Hnd|]. split; [|exact Hlab].
  intros Hin. rewrite Forall_forall in Hb. specialize (Hb _ Hin).
  unfold root_id in Hb. lia.
Qed.

Lemma tree_and_store_in_sync_witness :
  let st := (dispatch (SelectChanged (Some 1) "edit" (save_as web))
               (dispatch (SelectChanged None "add" (save_as db1))
                  PyxTerm_init).2).2 in
  NoDup (node_ids (tree st)) ∧ (root_id ∉ node_ids (tree st)).
Proof.
  intros st.
  assert (Hr : reachable st).
  { apply reach_step; [apply reach_step; [apply reach_init|]|]; reflexivity. }
  destruct (tree_and_store_in_sync st Hr) as (_ & H1 & H2 & _).
  split; [exact H1 | exact H2].
Defined.

(** ** Fresh identifiers for new connections *)

(** X7. Adding a connection never overwrites one: in a state the
    application reaches, the identifier of the new node has no record and no
    node yet, the saved record is stored under it, and every other record
    stays as it was. *)
Theorem add_takes_a_fresh_identifier
    (st : PyxTerm) (cursor : option NodeID) (user : reply)
    (d : gmap string string) :
  reachable st →
  ConnectionModal None user = Some (Some d) →
  let k := current_id (tree st) in
  let st' := (on_select_changed cursor "add" user st).2 in
  connections st !! k = None
  ∧ (k ∉ node_ids (tree st))
  ∧ connections st' = <[k:=d]> (connections st)
  ∧ dom (connections st') = {[k]} ∪ dom (connections st)
  ∧ (∀ j e, connections st !! j = Some e → connections st' !! j = Some e)
  ∧ node_ids (tree st') = node_ids (tree st) ++ [k].
Proof.
  intros (Hst & _ & Hb & _)%reachable_in_sync E k st'. subst k st'.
  assert (Hfresh : current_id (tree st) ∉ node_ids (tree st)).
  { intros Hin. rewrite Forall_forall in Hb. specialize (Hb _ Hin). lia. }
  assert (Hnone : connections st !! current_id (tree st) = None).
  { apply eq_None_not_Some. by intros H%Hst. }
  destruct (ConnectionModal_saved _ _ _ E) as (_ & _ & _ & Hl & _).
  rewrite on_select_changed_add, E, (handle_add_connection_run _ _ _ Hl).
  cbn [snd connections tree].
  split; [done|]. split; [done|]. split; [done|].
  split; [apply dom_insert_L|]. split.
  - intros j e Hj. rewrite lookup_insert_ne; [done|]. congruence.
  - by rewrite node_ids_update_node, node_ids_root_add.
Qed.

Lemma add_takes_a_fresh_identifier_witness :
  let st := (dispatch (SelectChanged None "add" (save_as db1)) PyxTerm_init).2 in
  let st' := (on_select_changed None "add" (save_as web) st).2 in
  connections st !! 2 = None
  ∧ connections st' !! 1 = connections st !! 1
  ∧ node_ids (tree st') = [1; 2].
Proof.
  intros st st'.
  assert (Hr : reachable st).
  { apply reach_step; [apply reach_init | reflexivity]. }
  destruct (add_takes_a_fresh_identifier st None (save_as web) _ Hr eq_refl)
    as (H1 & _ & _ & _ & H2 & H3).
  split; [exact H1|]. split; [|exact H3].
  etransitivity; [apply (H2 1); reflexivity | reflexivity].
Defined.

(** X8. The identifier of a removed connection is not used again: in a
    state the application reaches, an identifier that was handed out and has
    no record has none after any further valid run. *)
Theorem removed_identifier_stays_unused
    (st : PyxTerm) (evs : list event) (k : NodeID) :
  reachable st →
  valid_run evs st = true →
  k < current_id (tree st) →
  connections st !! k = None →
  connections (final evs st) !! k = None.
Proof.
  intros Hr Hv Hk Hn.
  cut (in_sync (final evs st) ∧ k < current_id (tree (final evs st))
       ∧ connections (final evs st) !! k = None); [naive_solver|].
  apply (valid_run_invariant
    (λ s, in_sync s ∧ k < current_id (tree s) ∧ connections s !! k = None));
    [|exact Hv|by auto using reachable_in_sync].
  clear st Hr Hv Hk Hn. intros ev st Hok (Hs & Hk & Hn).
  split; [by apply dispatch_in_sync|].
  destruct Hs as (Hst & _).
  destruct ev as [key|cursor value user].
  { rewrite dispatch_key. destruct (binding key) as [a|]; [|done].
    destruct (run_action_frame a st) as (_ & Hc & Ht). by rewrite Hc, Ht. }
  cbn [dispatch].
  destruct (on_select_changed_effect cursor value user st)
    as [_ [(_ & Hc & Ht)|[(d & l & _ & _ & _ & _ & Hc & Ht)
           |[(n & d & l & _ & Hsel & _ & _ & _ & Hc & Ht)
            |(n & _ & _ & _ & _ & Hc & Ht)]]]]; rewrite Hc, Ht.
  - done.
  - cbn [update_node Tree_root_add snd current_id]. split; [lia|].
    rewrite lookup_insert_ne; [done|lia].
  - cbn [update_node current_id]. split; [done|].
    rewrite lookup_insert_ne; [done|].
    intros ->. pose proof (cursor_ok_selected _ _ _ _ _ Hok Hsel) as Hin.
    apply Hst in Hin as [? Hin]. congruence.
  - cbn [Tree_remove current_id]. split; [done|].
    apply lookup_delete_None. auto.
Qed.

Lemma removed_identifier_stays_unused_witness :
  let st := final [SelectChanged None "add" (save_as db1);
                   SelectChanged (Some 1) "remove" (press "yes")]
                  PyxTerm_init in
  connections (final [SelectChanged None "add" (save_as web);
                      SelectChanged (Some 2) "edit" (save_as db1)] st) !! 1
  = None.
Proof.
  intros st.
  apply (removed_identifier_stays_unused st
           [SelectChanged None "add" (save_as web);
            SelectChanged (Some 2) "edit" (save_as db1)] 1).
  - apply (valid_run_reachable
             [SelectChanged None "add" (save_as db1);
              SelectChanged (Some 1) "remove" (press "yes")] PyxTerm_init);
      [apply reach_init | reflexivity].
  - reflexivity.
  - vm_compute. lia.
  - reflexivity.
Defined.

(** ** No handler raises in a valid run *)

(** X9. From a state the application reaches, a run in which the cursor is
    always on nothing, on the root or on a node of the tree ends without any
    handler raising: no [KeyError] from a missing label or from deleting a
    record that is not there. *)
Theorem valid_run_never_raises (st : PyxTerm) (evs : list event) :
  reachable st → valid_run evs st = true → (run evs st).1 = Ok ().
Proof.
  revert st. induction evs as [|ev evs IH]; intros st Hr Hv; [done|].
  cbn [valid_run] in Hv. apply andb_true_iff in Hv as [Hok Hv].
  rewrite run_cons.
  pose proof (reachable_no_raise st ev Hr Hok) as Hno.
  pose proof (reach_step st ev Hr Hok) as Hr'.
  destruct (dispatch ev st) as [[[]|e] st']; [|done].
  by apply IH.
Qed.

Lemma valid_run_never_raises_witness :
  (run [SelectChanged None "add" (save_as db1);
        SelectChanged (Some 1) "edit" (save_as web);
        Key "ctrl+n";
        SelectChanged (Some 1) "remove" (press "yes");
        SelectChanged (Some 0) "remove" (press "yes")] PyxTerm_init).1
  = Ok ().
Proof.
  apply valid_run_never_raises; [apply reach_init | reflexivity].
Defined.

(** ** Connection nodes are leaves *)

Lemma dispatch_leaves ev st :
  Forall (λ x, allow_expand x = false) (children (tree st)) →
  Forall (λ x, allow_expand x = false) (children (tree (dispatch ev st).2)).
Proof.
  intros Hs. destruct ev as [k|cursor value user].
  { rewrite dispatch_key. destruct (binding k) as [a|]; [|done].
    destruct (run_action_frame a st) as (_ & _ & Ht). by rewrite Ht. }
  cbn [dispatch]. rewrite Forall_forall in Hs. apply Forall_forall.
  destruct (on_select_changed_effect cursor value user st)
    as [_ [(_ & _ & Ht)|[(d & l & _ & _ & _ & _ & _ & Ht)
           |[(n & d & l & _ & _ & _ & _ & _ & _ & Ht)
            |(n & _ & _ & _ & _ & _ & Ht)]]]]; rewrite Ht.
  - done.
  - intros x (y & [Hy|Hy%list_elem_of_singleton]%elem_of_app & Hx)
      %elem_of_update_node.
    + destruct Hx as [[_ ->]|[_ ->]]; [done|by apply Hs].
    + subst y. by destruct Hx as [[_ ->]|[? _]].
  - intros x (y & Hy & [[_ ->]|[_ ->]])%elem_of_update_node;
      simpl; by apply Hs.
  - intros x [_ Hx]%list_elem_of_filter. by apply Hs.
Qed.

(** X10. Connections cannot have children: after any run of the
    application every node below the root has [allow_expand] off. *)
Theorem connection_nodes_are_leaves (evs : list event) (x : TreeNode) :
  x ∈ children (tree (final evs PyxTerm_init)) → allow_expand x = false.
Proof.
  revert x. apply Forall_forall.
  apply (run_invariant
           (λ st, Forall (λ x, allow_expand x = false) (children (tree st)))).
  - apply dispatch_leaves.
  - constructor.
Qed.

Lemma connection_nodes_are_leaves_witness :
  allow_expand (mkNode 2 "db1" false) = false.
Proof.
  apply (connection_nodes_are_leaves
           [SelectChanged None "add" (save_as web);
            SelectChanged None "add" (save_as web);
            SelectChanged (Some 2) "edit" (save_as db1)]).
  vm_compute. apply list_elem_of_further, list_elem_of_here.
Defined.

(** ** What the callbacks do with a result they cannot use *)

(** X11. The add and edit callbacks treat [None] and the empty dict alike,
    as nothing to do; a result that is not empty but has no label field
    makes them raise [KeyError] for the label before the tree, the store or
    the notifications are touched. *)
Theorem result_without_label_raises
    (st : PyxTerm) (n : NodeID) (d : gmap string string) :
  d ≠ ∅ →
  d !! "label" = None →
  handle_add_connection (Some d) st = (Raise (KeyError_field "label"), st)
  ∧ handle_edit_connection n (Some d) st = (Raise (KeyError_field "label"), st)
  ∧ handle_add_connection (Some ∅) st = handle_add_connection None st
  ∧ handle_edit_connection n (Some ∅) st = handle_edit_connection n None st
  ∧ handle_add_connection None st = (Ok (), st)
  ∧ handle_edit_connection n None st = (Ok (), st).
Proof.
  intros Hne Hl.
  assert (truthy (Some d) = true) as Ht.
  { simpl. by rewrite bool_decide_eq_false_2. }
  unfold handle_add_connection, handle_edit_connection, getitem.
  rewrite Ht. cbn [from_option]. unfold id. rewrite Hl.
  repeat split; done.
Qed.

Lemma result_without_label_raises_witness :
  handle_add_connection (Some {[ "host" := "10.0.0.5" ]}) PyxTerm_init
  = (Raise (KeyError_field "label"), PyxTerm_init).
Proof.
  apply (result_without_label_raises PyxTerm_init 1 {[ "host" := "10.0.0.5" ]});
    [|reflexivity].
  intros H. apply (f_equal (λ m : gmap string string, m !! "host")) in H.
  vm_compute in H. discriminate.
Defined.



(** ** The tab counter *)

Lemma dispatch_tab_counter_step ev st :
  tab_counter (dispatch ev st).2
  = tab_counter st + (if is_new_tab ev then 1 else 0).
Proof.
  destruct ev as [k|cursor value user].
  - rewrite dispatch_key. unfold is_new_tab.
    destruct (binding k) as [[]|]; simpl; try lia.
    unfold action_close_tab. unfold_m. simpl. case_decide; simpl; lia.
  - destruct (on_select_changed_effect cursor value user st) as [[Hc _] _].
    simpl. rewrite Hc. lia.
Qed.

(** X13. The tab counter counts the tabs ever created: after a run it is
    what it was plus the number of identifiers [action_new_tab] generated,
    whatever tabs were closed in between. *)
Theorem tab_counter_counts_new_tabs (evs : list event) (st : PyxTerm) :
  tab_counter (final evs st)
  = tab_counter st + length (generated_tab_ids evs st).
Proof.
  unfold final. revert st. induction evs as [|ev evs IH]; intros st.
  { simpl. lia. }
  rewrite run_cons. cbn [generated_tab_ids]. rewrite length_app.
  pose proof (dispatch_tab_counter_step ev st) as Hstep.
  assert (length (match ev with
                  | Key k => match binding k with
                             | Some new_tab => [tab_name (tab_counter st)]
                             | _ => []
                             end
                  | _ => []
                  end) = (if is_new_tab ev then 1 else 0)) as ->.
  { destruct ev as [k|]; [|done]. simpl. by destruct (binding k) as [[]|]. }
  destruct (dispatch ev st) as [[[]|e] st']; simpl in *.
  - rewrite IH. lia.
  - lia.
Qed.

(** ** Dark mode *)

(** X14. Toggling dark mode always leaves one of the two themes chosen, a
    theme that is neither becomes the light one, and toggling twice from
    either of the two themes gives back the state it started from. *)
Theorem toggle_dark_twice (st : PyxTerm) :
  let once := (action_toggle_dark st).2 in
  let twice := (action_toggle_dark once).2 in
  (theme once = "textual-dark" ∨ theme once = "textual-light")
  ∧ (theme st ≠ "textual-light" → theme once = "textual-light")
  ∧ (theme st = "textual-dark" ∨ theme st = "textual-light" → twice = st).
Proof.
  intros once twice. subst once twice. destruct st as [c m t h tb tr ns].
  unfold action_toggle_dark, modify, set_theme. simpl.
  split; [case_decide; auto|]. split.
  - intros H. by case_decide.
  - intros [-> | ->]; reflexivity.
Qed.

Lemma toggle_dark_twice_witness :
  (action_toggle_dark (action_toggle_dark PyxTerm_init).2).2 = PyxTerm_init.
Proof.
  apply (proj2 (proj2 (toggle_dark_twice PyxTerm_init))). left. reflexivity.
Defined.

(** ** Keys and menu keep to their own parts of the application *)

Lemma handle_add_connection_frame result st :
  let st' := (handle_add_connection result st).2 in
  theme st' = theme st ∧ sidebar_hidden st' = sidebar_hidden st.
Proof.
  unfold handle_add_connection, getitem. destruct (truthy result); [|done].
  destruct (default ∅ result !! "label"); done.
Qed.

Lemma handle_edit_connection_frame n result st :
  let st' := (handle_edit_connection n result st).2 in
  theme st' = theme st ∧ sidebar_hidden st' = sidebar_hidden st.
Proof.
  unfold handle_edit_connection, getitem. destruct (truthy result); [|done].
  destruct (default ∅ result !! "label"); done.
Qed.

Lemma handle_remove_connection_frame n result st :
  let st' := (handle_remove_connection n result st).2 in
  theme st' = theme st ∧ sidebar_hidden st' = sidebar_hidden st.
Proof.
  destruct result; [|done].
  destruct (connections st !! n) as [d|] eqn:Ed.
  - by rewrite (handle_remove_connection_present _ _ _ Ed).
  - by rewrite (handle_remove_connection_absent _ _ Ed).
Qed.

(** X15. The key bindings never raise and never touch the connection
    mapping or the tree, whatever key is pressed; the connection menu never
    touches the tabs, the tab counter, the theme or the sidebar, whatever is
    selected and whatever the modal is answered. *)
Theorem keys_and_menu_are_separate :
  (∀ k st,
     (dispatch (Key k) st).1 = Ok ()
     ∧ connections (dispatch (Key k) st).2 = connections st
     ∧ tree (dispatch (Key k) st).2 = tree st)
  ∧ (∀ cursor value user st,
       let st' := (on_select_changed cursor value user st).2 in
       tabs st' = tabs st
       ∧ tab_counter st' = tab_counter st
       ∧ theme st' = theme st
       ∧ sidebar_hidden st' = sidebar_hidden st).
Proof.
  split.
  - intros k st. rewrite dispatch_key. destruct (binding k) as [a|]; [|done].
    apply run_action_frame.
  - intros cursor value user st st'. subst st'.
    destruct (on_select_changed_effect cursor value user st) as [[Hc Ht] _].
    split; [exact Ht|]. split; [exact Hc|].
    destruct (decide (value = "add")) as [->|Ha].
    { rewrite on_select_changed_add.
      destruct (ConnectionModal None user) as [r|]; [|done].
      apply handle_add_connection_frame. }
    destruct (decide (value = "edit")) as [->|He].
    { rewrite on_select_changed_edit.
      destruct (selected_connection cursor) as [n|]; [|done].
      destruct (ConnectionModal _ user) as [r|]; [|done].
      apply handle_edit_connection_frame. }
    destruct (decide (value = "remove")) as [->|Hr].
    { rewrite on_select_changed_remove.
      destruct (selected_connection cursor) as [n|]; [|done].
      destruct (ConfirmModal user) as [r|]; [|done].
      apply handle_remove_connection_frame. }
    by rewrite on_select_changed_other.
Qed.

(** ** Removing a connection that is there *)

(** X16. In a state the application reaches, confirming the removal of the
    selected node of the tree raises nothing, takes exactly that node out of
    the tree, keeps every other node as it was, and announces the removal
    with the label the node had. *)
Theorem confirmed_removal_takes_the_node_out
    (st : PyxTerm) (cursor : option NodeID) (n : NodeID) (user : reply) :
  reachable st →
  cursor_ok st (SelectChanged cursor "remove" user) = true →
  selected_connection cursor = Some n →
  ConfirmModal user = Some true →
  let res := on_select_changed cursor "remove" user st in
  res.1 = Ok ()
  ∧ (n ∉ node_ids (tree res.2))
  ∧ children (tree res.2) = filter (λ x, node_id x ≠ n) (children (tree st))
  ∧ (∃ x, x ∈ children (tree st) ∧ node_id x = n
          ∧ notifications res.2
            = notifications st ++ ["Connection removed: " +:+ node_label x]).
Proof.
  intros (Hst & _)%reachable_in_sync Hok Hsel Hyes res. subst res.
  pose proof (cursor_ok_selected _ _ _ _ _ Hok Hsel) as Hin.
  destruct (proj2 (Hst n) Hin) as [d Hd].
  rewrite on_select_changed_remove, Hsel, Hyes,
    (handle_remove_connection_present _ _ _ Hd).
  cbn [fst snd tree notifications].
  split; [done|]. split; [rewrite node_ids_remove; naive_solver|].
  split; [done|].
  unfold find_node.
  destruct (list_find (λ x, node_id x = n) (children (tree st)))
    as [[i x]|] eqn:Ef.
  - apply list_find_Some in Ef as (Hi & Hx & _).
    exists x. split; [by eapply list_elem_of_lookup_2|]. by split.
  - apply list_find_None in Ef. unfold node_ids in Hin.
    apply list_elem_of_fmap in Hin as (y & -> & Hy).
    rewrite Forall_forall in Ef. by destruct (Ef y Hy).
Qed.

Lemma confirmed_removal_takes_the_node_out_witness :
  let st := (dispatch (SelectChanged None "add" (save_as web))
               (dispatch (SelectChanged None "add" (save_as db1))
                  PyxTerm_init).2).2 in
  let res := on_select_changed (Some 1) "remove" (press "yes") st in
  res.1 = Ok () ∧ 1 ∉ node_ids (tree res.2).
Proof.
  intros st res.
  assert (Hr : reachable st).
  { apply reach_step; [apply reach_step; [apply reach_init|]|]; reflexivity. }
  destruct (confirmed_removal_takes_the_node_out st (Some 1) 1 (press "yes")
              Hr eq_refl eq_refl eq_refl) as (H1 & H2 & _).
  split; [exact H1 | exact H2].
Defined.
